(** * elastalert/create_index.py: configuration resolution and index provisioning

    A shallow embedding of [main] of [src/elastalert/create_index.py].

    - Python values that flow through the script (strings, integers, booleans,
      [None], YAML collections) are the type [pyval]; truthiness, [is not
      None] and [is not False] are written out.
    - [argparse] is modelled by the destination each option writes to: the
      command line is a list of options, later occurrences overwrite earlier
      ones, and the defaults are the ones installed by [add_argument]
      (among them the [ES_*] environment variables).
    - The outside world (file system, terminal, Elasticsearch cluster) is an
      oracle answering each call from the history of the run; a call either
      returns or raises, and a raised exception propagates, because the script
      has no [try]. A run yields a result and the trace of calls it made. *)

From Stdlib Require Import ZArith List String Ascii Bool Lia.
Import ListNotations.
Local Open Scope string_scope.
Local Open Scope list_scope.

(** ** Python values *)

Local Set Warnings "-register-all".

Inductive pyval : Type :=
| PyNone
| PyBool (b : bool)
| PyInt (n : Z)
| PyStr (s : string)
| PyList (l : list pyval)
| PyDict (d : list (string * pyval)).

(** [bool(v)]: the test behind [x if v else y] and [if not v]. *)
Definition truthy (v : pyval) : bool :=
  match v with
  | PyNone => false
  | PyBool b => b
  | PyInt n => negb (Z.eqb n 0)
  | PyStr s => negb (String.eqb s "")
  | PyList l => match l with [] => false | _ => true end
  | PyDict d => match d with [] => false | _ => true end
  end.

(** [a if a else b] *)
Definition if_truthy (a b : pyval) : pyval := if truthy a then a else b.

(** [a if a is not None else b] *)
Definition if_not_none (a b : pyval) : pyval :=
  match a with PyNone => b | _ => a end.

(** [v is not False] *)
Definition is_not_False (v : pyval) : bool :=
  match v with PyBool false => false | _ => true end.

Definition py_str (o : option string) : pyval :=
  match o with Some s => PyStr s | None => PyNone end.
Definition py_int (o : option Z) : pyval :=
  match o with Some n => PyInt n | None => PyNone end.
Definition py_bool (o : option bool) : pyval :=
  match o with Some b => PyBool b | None => PyNone end.

(** Exceptions are identified by their class name. *)
Definition exn := string.

Inductive result (A : Type) : Type :=
| Ok (a : A)
| Err (e : exn).
Arguments Ok {A} a.
Arguments Err {A} e.

(** A table with string keys, looked up from the front; a dict built by
    [yaml.load] is one (only lookups are made, the order is immaterial). *)
Fixpoint assoc {V : Type} (k : string) (d : list (string * V)) : option V :=
  match d with
  | [] => None
  | (k', v) :: d' => if String.eqb k k' then Some v else assoc k d'
  end.

(** [data.get(k, dflt)]; an object that is not a dict has no [get]. *)
Definition dict_get (data : pyval) (k : string) (dflt : pyval) : result pyval :=
  match data with
  | PyDict d => Ok (match assoc k d with Some v => v | None => dflt end)
  | _ => Err "AttributeError"
  end.

(** [s.lower()] on ASCII letters. *)
Definition lower_ascii (c : ascii) : ascii :=
  let n := nat_of_ascii c in
  if (Nat.leb 65 n && Nat.leb n 90)%bool then ascii_of_nat (n + 32) else c.

Fixpoint lower (s : string) : string :=
  match s with
  | EmptyString => EmptyString
  | String c s' => String (lower_ascii c) (lower s')
  end.

(** [s in (t1, t2, ...)] *)
Definition str_in (s : string) (l : list string) : bool :=
  existsb (String.eqb s) l.

(** ** The command line and the environment *)

(** One element per option occurrence on the command line.  [--port] carries
    the integer that [type=int] produced. *)
Inductive cli_opt : Type :=
| OptHost (s : string)
| OptPort (n : Z)
| OptUsername (s : string)
| OptPassword (s : string)
| OptUrlPrefix (s : string)
| OptNoAuth
| OptSsl
| OptNoSsl
| OptVerifyCerts
| OptNoVerifyCerts
| OptIndex (s : string)
| OptOldIndex (s : string)
| OptSendGetBodyAs (s : string)
| OptBotoProfile (s : string)
| OptProfile (s : string)
| OptAwsRegion (s : string)
| OptTimeout (s : string)
| OptConfig (s : string).

(** The environment variables the script reads.  [ES_PORT] is the integer
    [argparse] obtains from the string default through [type=int];
    [ES_USE_SSL] is the boolean [envparse] casts the variable to. *)
Record Environ : Type := {
  ES_HOST : option string;
  ES_PORT : option Z;
  ES_USERNAME : option string;
  ES_PASSWORD : option string;
  ES_USE_SSL : option bool
}.

Definition no_environ : Environ :=
  {| ES_HOST := None; ES_PORT := None; ES_USERNAME := None;
     ES_PASSWORD := None; ES_USE_SSL := None |}.

(** What one option occurrence stores in each destination. *)
Module Dest.
Definition host o := match o with OptHost s => Some s | _ => None end.
Definition port o := match o with OptPort n => Some n | _ => None end.
Definition username o := match o with OptUsername s => Some s | _ => None end.
Definition password o := match o with OptPassword s => Some s | _ => None end.
Definition url_prefix o := match o with OptUrlPrefix s => Some s | _ => None end.
Definition no_auth o := match o with OptNoAuth => Some true | _ => None end.
Definition ssl o :=
  match o with OptSsl => Some true | OptNoSsl => Some false | _ => None end.
Definition verify_certs o :=
  match o with
  | OptVerifyCerts => Some true
  | OptNoVerifyCerts => Some false
  | _ => None
  end.
Definition index o := match o with OptIndex s => Some s | _ => None end.
Definition old_index o := match o with OptOldIndex s => Some s | _ => None end.
Definition send_get_body_as o :=
  match o with OptSendGetBodyAs s => Some s | _ => None end.
Definition profile o :=
  match o with OptBotoProfile s | OptProfile s => Some s | _ => None end.
Definition aws_region o := match o with OptAwsRegion s => Some s | _ => None end.
Definition timeout o := match o with OptTimeout s => Some (PyStr s) | _ => None end.
Definition config o := match o with OptConfig s => Some s | _ => None end.
End Dest.

(** The value of a destination after the whole command line: the default,
    overwritten by every occurrence in turn. *)
Definition stored {A : Type} (dest : cli_opt -> option A)
    (argv : list cli_opt) (default : option A) : option A :=
  fold_left (fun acc o => match dest o with Some v => Some v | None => acc end)
            argv default.

Definition stored_or {A : Type} (dest : cli_opt -> option A)
    (argv : list cli_opt) (default : A) : A :=
  match stored dest argv None with Some v => v | None => default end.

(** The namespace returned by [parser.parse_args()]. *)
Module Args.
Record t : Type := {
  host : option string;
  port : option Z;
  username : option string;
  password : option string;
  url_prefix : option string;
  no_auth : option bool;
  ssl : option bool;
  verify_certs : option bool;
  index : option string;
  old_index : option string;
  send_get_body_as : string;
  profile : option string;
  aws_region : option string;
  timeout : pyval;
  config : string
}.
End Args.

Definition parse_args (env : Environ) (argv : list cli_opt) : Args.t :=
  {| Args.host := stored Dest.host argv (ES_HOST env);
     Args.port := stored Dest.port argv (ES_PORT env);
     Args.username := stored Dest.username argv (ES_USERNAME env);
     Args.password := stored Dest.password argv (ES_PASSWORD env);
     Args.url_prefix := stored Dest.url_prefix argv None;
     Args.no_auth := stored Dest.no_auth argv None;
     Args.ssl := stored Dest.ssl argv (ES_USE_SSL env);
     Args.verify_certs := stored Dest.verify_certs argv None;
     Args.index := stored Dest.index argv None;
     Args.old_index := stored Dest.old_index argv None;
     Args.send_get_body_as := stored_or Dest.send_get_body_as argv "GET";
     Args.profile := stored Dest.profile argv None;
     Args.aws_region := stored Dest.aws_region argv None;
     Args.timeout := stored_or Dest.timeout argv (PyInt 60);
     Args.config := stored_or Dest.config argv "config.yaml" |}.

(** ** Resolved settings (the local variables of [main], lines 64-97) *)

Module Cfg.
Record t : Type := {
  host : pyval;
  port : pyval;
  username : pyval;
  password : pyval;
  url_prefix : pyval;
  use_ssl : pyval;
  verify_certs : pyval;
  aws_region : pyval;
  send_get_body_as : pyval;
  ca_certs : pyval;
  client_cert : pyval;
  client_key : pyval
}.
End Cfg.

Definition rbind {A B : Type} (r : result A) (f : A -> result B) : result B :=
  match r with Ok a => f a | Err e => Err e end.

Notation "x <-? r ; k" := (rbind r (fun x => k))
  (at level 61, r at next level, right associativity).

(** Lines 64-75: the branch taken when a config file was found; [data] is
    what [yaml.load] returned.  The lookups have no effect, and line 71 makes
    one whatever the arguments are, so that an object without [get] gives
    [AttributeError] in every case. *)
Definition file_config (args : Args.t) (data : pyval) : result Cfg.t :=
  es_host <-? dict_get data "es_host" PyNone;
  es_port <-? dict_get data "es_port" PyNone;
  es_username <-? dict_get data "es_username" PyNone;
  es_password <-? dict_get data "es_password" PyNone;
  es_url_prefix <-? dict_get data "es_url_prefix" (PyStr "");
  f_use_ssl <-? dict_get data "use_ssl" PyNone;
  f_verify_certs <-? dict_get data "verify_certs" PyNone;
  f_aws_region <-? dict_get data "aws_region" PyNone;
  f_send_get_body_as <-? dict_get data "send_get_body_as" (PyStr "GET");
  f_ca_certs <-? dict_get data "ca_certs" PyNone;
  f_client_cert <-? dict_get data "client_cert" PyNone;
  f_client_key <-? dict_get data "client_key" PyNone;
  Ok {| Cfg.host := if_truthy (py_str (Args.host args)) es_host;
        Cfg.port := if_truthy (py_int (Args.port args)) es_port;
        Cfg.username := if_truthy (py_str (Args.username args)) es_username;
        Cfg.password := if_truthy (py_str (Args.password args)) es_password;
        Cfg.url_prefix := if_not_none (py_str (Args.url_prefix args)) es_url_prefix;
        Cfg.use_ssl := if_not_none (py_bool (Args.ssl args)) f_use_ssl;
        Cfg.verify_certs :=
          if_not_none (py_bool (Args.verify_certs args))
                      (PyBool (is_not_False f_verify_certs));
        Cfg.aws_region := f_aws_region;
        Cfg.send_get_body_as := f_send_get_body_as;
        Cfg.ca_certs := f_ca_certs;
        Cfg.client_cert := f_client_cert;
        Cfg.client_key := f_client_key |}.

(** ** Authentication and the client handle *)

(** Modelled from the spec: the value that [Auth()(...)] returns; class
    [Auth] lives in module [auth], which is not among the sources.  Section 3
    of the specification gives its three variants. *)
Inductive AuthStrategy : Type :=
| NoAuth
| BasicAuth (username password : pyval)
| AwsSignedRequest (region profile : pyval).

(** Modelled from the spec: [Auth.__call__], of which only the call at lines
    100-105 is among the sources.  Section 4.2 of the specification gives the
    selection rule, evaluated in order: a region that is set selects the
    signed-request strategy built from region and profile; otherwise a
    non-empty username selects basic authentication; otherwise no
    authentication is used. *)
Definition Auth (host username password aws_region profile_name : pyval)
  : AuthStrategy :=
  match aws_region with
  | PyNone => if truthy username then BasicAuth username password else NoAuth
  | _ => AwsSignedRequest aws_region profile_name
  end.

(** The keyword arguments of [Elasticsearch(...)], lines 106-118. *)
Module Client.
Record t : Type := {
  host : pyval;
  port : pyval;
  timeout : pyval;
  use_ssl : pyval;
  verify_certs : pyval;
  connection_class : string;
  http_auth : AuthStrategy;
  url_prefix : pyval;
  send_get_body_as : pyval;
  client_cert : pyval;
  ca_certs : pyval;
  client_key : pyval
}.
End Client.

(** Lines 99-118. *)
Definition connect (args : Args.t) (cfg : Cfg.t) : Client.t :=
  let timeout := Args.timeout args in
  let http_auth := Auth (Cfg.host cfg) (Cfg.username cfg) (Cfg.password cfg)
                        (Cfg.aws_region cfg) (py_str (Args.profile args)) in
  {| Client.host := Cfg.host cfg;
     Client.port := Cfg.port cfg;
     Client.timeout := timeout;
     Client.use_ssl := Cfg.use_ssl cfg;
     Client.verify_certs := Cfg.verify_certs cfg;
     Client.connection_class := "RequestsHttpConnection";
     Client.http_auth := http_auth;
     Client.url_prefix := Cfg.url_prefix cfg;
     Client.send_get_body_as := Cfg.send_get_body_as cfg;
     Client.client_cert := Cfg.client_cert cfg;
     Client.ca_certs := Cfg.ca_certs cfg;
     Client.client_key := Cfg.client_key cfg |}.

(** ** Mappings (lines 120-136) *)

Definition keyword : pyval := PyDict [("type", PyStr "keyword")].
Definition date_format_first : pyval :=
  PyDict [("format", PyStr "dateOptionalTime"); ("type", PyStr "date")].
Definition date_type_first : pyval :=
  PyDict [("type", PyStr "date"); ("format", PyStr "dateOptionalTime")].

Definition silence_mapping : pyval :=
  PyDict [("silence", PyDict [("properties", PyDict
    [("rule_name", keyword);
     ("until", date_type_first);
     ("@timestamp", date_format_first)])])].

Definition ess_mapping : pyval :=
  PyDict [("elastalert_status", PyDict [("properties", PyDict
    [("rule_name", keyword);
     ("@timestamp", date_format_first)])])].

Definition es_mapping : pyval :=
  PyDict [("elastalert", PyDict [("properties", PyDict
    [("rule_name", keyword);
     ("@timestamp", date_format_first);
     ("alert_time", date_format_first);
     ("match_time", date_format_first);
     ("match_body", PyDict [("enabled", PyBool false); ("type", PyStr "object")]);
     ("aggregate_id", keyword)])])].

Definition past_mapping : pyval :=
  PyDict [("past_elastalert", PyDict [("properties", PyDict
    [("rule_name", keyword);
     ("match_body", PyDict [("enabled", PyBool false); ("type", PyStr "object")]);
     ("@timestamp", date_format_first);
     ("aggregate_id", keyword)])])].

Definition error_mapping : pyval :=
  PyDict [("elastalert_error", PyDict [("properties", PyDict
    [("data", PyDict [("type", PyStr "object"); ("enabled", PyBool false)]);
     ("@timestamp", date_format_first)])])].

(** ** Calls to the outside world *)

Inductive call : Type :=
| IsFile (path : string)
| YamlLoad (filename : string)
| RawInput (prompt : string)
| GetPass (prompt : string)
| Stdout (line : string)
| Sleep (seconds : Z)
| IndicesExists (es : Client.t) (index : string)
| IndicesCreate (es : Client.t) (index : string)
| PutMapping (es : Client.t) (index doc_type : string) (body : pyval)
| Reindex (es : Client.t) (source target : string).

(** What a call hands back when it returns. *)
Definition resp (c : call) : Type :=
  match c with
  | IsFile _ | IndicesExists _ _ => bool
  | YamlLoad _ => pyval
  | RawInput _ | GetPass _ => string
  | _ => unit
  end.

Inductive outcome (R : Type) : Type :=
| Returns (r : R)
| Raises (e : exn).
Arguments Returns {R} r.
Arguments Raises {R} e.

Inductive event : Type :=
| Ev (c : call) (o : outcome (resp c)).

Definition trace := list event.

Definition call_of (e : event) : call := match e with Ev c _ => c end.

Definition completed (e : event) : bool :=
  match e with Ev _ (Returns _) => true | Ev _ (Raises _) => false end.

Definition calls (t : trace) : list call := map call_of t.

(** The outside world: the answer to a call, given everything that happened
    before it in the run. *)
Definition world := trace -> forall c : call, outcome (resp c).

(** ** Runs: a computation reads the history so far and yields a result and
    the events it added; an error ends the computation. *)

Definition M (A : Type) : Type := trace -> result A * trace.

Definition ret {A : Type} (a : A) : M A := fun _ => (Ok a, []).

Definition lift {A : Type} (r : result A) : M A := fun _ => (r, []).

Definition bind {A B : Type} (m : M A) (f : A -> M B) : M B :=
  fun h =>
    match m h with
    | (Ok a, t) => let (r, t') := f a (h ++ t) in (r, t ++ t')
    | (Err e, t) => (Err e, t)
    end.

Notation "x <- m ;; k" := (bind m (fun x => k))
  (at level 61, m at next level, right associativity).
Notation "m ;; k" := (bind m (fun _ => k))
  (at level 61, right associativity).

(** [print] and [time.sleep] return; every other call is answered by the
    outside world. *)
Definition answer (w : world) (h : trace) (c : call) : outcome (resp c) :=
  match c as c0 return outcome (resp c0) with
  | Stdout _ => Returns tt
  | Sleep _ => Returns tt
  | c0 => w h c0
  end.

(** ** The script *)

Section Script.

(** The outside world of the run. *)
Variable oracle : world.

(** Python's [int] applied to a string; [None] stands for [ValueError]. *)
Variable int_of_str : string -> option Z.

(** A call: its outcome is recorded, and an exception ends the run. *)
Definition perform (c : call) : M (resp c) :=
  fun h =>
    let o := answer oracle h c in
    (match o with Returns r => Ok r | Raises e => Err e end, [Ev c o]).

Definition raw_input (prompt : string) : M string := perform (RawInput prompt).
Definition getpass (prompt : string) : M string := perform (GetPass prompt).
Definition print (line : string) : M unit := perform (Stdout line).
Definition sleep (seconds : Z) : M unit := perform (Sleep seconds).

(** Lines 54-59. *)
Definition choose_config_file (args : Args.t) : M string :=
  found <- perform (IsFile "config.yaml") ;;
  if found : bool then ret "config.yaml"
  else
    found' <- perform (IsFile (Args.config args)) ;;
    if found' : bool then ret (Args.config args) else ret "".

(** Lines 62-75. *)
Definition resolve_from_file (args : Args.t) (filename : string) : M Cfg.t :=
  data <- perform (YamlLoad filename) ;;
  lift (file_config args data).

(** Lines 77-97. *)
Definition resolve_interactive (args : Args.t) : M Cfg.t :=
  let username := if_truthy (py_str (Args.username args)) PyNone in
  let password := if_truthy (py_str (Args.password args)) PyNone in
  let aws_region := py_str (Args.aws_region args) in
  host <- (if truthy (py_str (Args.host args))
           then ret (py_str (Args.host args))
           else s <- raw_input "Enter Elasticsearch host: " ;; ret (PyStr s)) ;;
  port <- (if truthy (py_int (Args.port args))
           then ret (py_int (Args.port args))
           else s <- raw_input "Enter Elasticsearch port: " ;;
                match int_of_str s with
                | Some n => ret (PyInt n)
                | None => lift (Err "ValueError")
                end) ;;
  use_ssl <- match Args.ssl args with
             | Some b => ret b
             | None => s <- raw_input "Use SSL? t/f: " ;;
                       ret (str_in (lower s) ["t"; "true"])
             end ;;
  verify_certs <- (if use_ssl : bool
                   then match Args.verify_certs args with
                        | Some b => ret b
                        | None =>
                            s <- raw_input "Verify TLS certificates? t/f: " ;;
                            ret (negb (str_in (lower s) ["f"; "false"]))
                        end
                   else ret true) ;;
  credentials <-
    match Args.no_auth args, username with
    | None, PyNone =>
        u <- raw_input "Enter optional basic-auth username (or leave blank): " ;;
        p <- getpass "Enter optional basic-auth password (or leave blank): " ;;
        ret (PyStr u, PyStr p)
    | _, _ => ret (username, password)
    end ;;
  url_prefix <- match Args.url_prefix args with
                | Some s => ret (PyStr s)
                | None =>
                    s <- raw_input "Enter optional Elasticsearch URL prefix (prepends a keyword to the URL of every request): " ;;
                    ret (PyStr s)
                end ;;
  ret {| Cfg.host := host;
         Cfg.port := port;
         Cfg.username := fst credentials;
         Cfg.password := snd credentials;
         Cfg.url_prefix := url_prefix;
         Cfg.use_ssl := PyBool use_ssl;
         Cfg.verify_certs := PyBool verify_certs;
         Cfg.aws_region := aws_region;
         Cfg.send_get_body_as := PyStr (Args.send_get_body_as args);
         Cfg.ca_certs := PyNone;
         Cfg.client_cert := PyNone;
         Cfg.client_key := PyNone |}.

(** Lines 54-97: [if filename:] selects the branch. *)
Definition resolve (args : Args.t) : M Cfg.t :=
  filename <- choose_config_file args ;;
  if truthy (PyStr filename)
  then resolve_from_file args filename
  else resolve_interactive args.

(** Lines 138-140. *)
Definition ask_index (args : Args.t) : M string :=
  index <- match Args.index args with
           | Some s => ret s
           | None => raw_input "New index name? (Default elastalert_status) "
           end ;;
  if negb (truthy (PyStr index)) then ret "elastalert_status" else ret index.

(** Lines 142-143. *)
Definition ask_old_index (args : Args.t) : M string :=
  match Args.old_index args with
  | Some s => ret s
  | None => raw_input "Name of existing index to copy? (Default None) "
  end.

(** Lines 145-169. *)
Definition provision (es : Client.t) (index old_index : string) : M unit :=
  found <- perform (IndicesExists es index) ;;
  if found : bool then
    print ("Index " ++ index ++ " already exists. Skipping index creation.")
  else
    perform (IndicesCreate es "elastalert") ;;
    perform (IndicesCreate es "elastalert_status") ;;
    perform (IndicesCreate es "elastalert_silence") ;;
    perform (IndicesCreate es "elastalert_error") ;;
    perform (IndicesCreate es "elastalert_past") ;;
    sleep 2 ;;
    perform (PutMapping es "elastalert" "elastalert" es_mapping) ;;
    perform (PutMapping es "elastalert_status" "elastalert_status" ess_mapping) ;;
    perform (PutMapping es "elastalert_silence" "silence" silence_mapping) ;;
    perform (PutMapping es "elastalert_error" "elastalert_error" error_mapping) ;;
    perform (PutMapping es "elastalert_past" "past_elastalert" past_mapping) ;;
    print ("New index " ++ index ++ " created") ;;
    (if truthy (PyStr old_index) then
       print ("Copying all data from old index '" ++ old_index
              ++ "' to new index '" ++ index ++ "'") ;;
       perform (Reindex es old_index index)
     else ret tt) ;;
    print "Done!".

(** [main], after [parse_args]. *)
Definition main_with (args : Args.t) : M unit :=
  cfg <- resolve args ;;
  let es := connect args cfg in
  index <- ask_index args ;;
  old_index <- ask_old_index args ;;
  provision es index old_index.

Definition main (env : Environ) (argv : list cli_opt) : M unit :=
  main_with (parse_args env argv).

(** A straight-line block: the calls are made in order, the first one that
    raises ends the block. *)
Fixpoint run_calls (cs : list call) : M unit :=
  match cs with
  | [] => ret tt
  | c :: cs' => perform c ;; run_calls cs'
  end.

End Script.

(** The statements of lines 150-169, in program order. *)
Definition creation_calls (es : Client.t) : list call :=
  [IndicesCreate es "elastalert";
   IndicesCreate es "elastalert_status";
   IndicesCreate es "elastalert_silence";
   IndicesCreate es "elastalert_error";
   IndicesCreate es "elastalert_past"].

Definition mapping_calls (es : Client.t) : list call :=
  [PutMapping es "elastalert" "elastalert" es_mapping;
   PutMapping es "elastalert_status" "elastalert_status" ess_mapping;
   PutMapping es "elastalert_silence" "silence" silence_mapping;
   PutMapping es "elastalert_error" "elastalert_error" error_mapping;
   PutMapping es "elastalert_past" "past_elastalert" past_mapping].

Definition migration_calls (es : Client.t) (index old_index : string) : list call :=
  if truthy (PyStr old_index) then
    [Stdout ("Copying all data from old index '" ++ old_index
             ++ "' to new index '" ++ index ++ "'");
     Reindex es old_index index]
  else [].

Definition steps (es : Client.t) (index old_index : string) : list call :=
  creation_calls es ++ [Sleep 2] ++ mapping_calls es
  ++ [Stdout ("New index " ++ index ++ " created")]
  ++ migration_calls es index old_index ++ [Stdout "Done!"].

Definition skip_notice (index : string) : string :=
  "Index " ++ index ++ " already exists. Skipping index creation.".

(** Kinds of calls. *)
Definition is_create (c : call) : bool :=
  match c with IndicesCreate _ _ => true | _ => false end.
Definition is_put_mapping (c : call) : bool :=
  match c with PutMapping _ _ _ _ => true | _ => false end.
Definition is_reindex (c : call) : bool :=
  match c with Reindex _ _ _ => true | _ => false end.
Definition is_exists (c : call) : bool :=
  match c with IndicesExists _ _ => true | _ => false end.
Definition infallible (c : call) : bool :=
  match c with Stdout _ | Sleep _ => true | _ => false end.
Definition mutating (c : call) : bool :=
  is_create c || is_put_mapping c || is_reindex c.
Definition is_input (c : call) : bool :=
  match c with
  | IsFile _ | YamlLoad _ | RawInput _ | GetPass _ => true
  | _ => false
  end.

(** The answer of an existence check recorded in the trace. *)
Definition found_existing (e : event) : bool :=
  match e with
  | Ev c o =>
      match c as c0 return outcome (resp c0) -> bool with
      | IndicesExists _ _ => fun o => match o with Returns b => b | Raises _ => false end
      | _ => fun _ => false
      end o
  end.

(** A computation that only reads files and asks the operator. *)
Definition quiet {A : Type} (m : M A) : Prop :=
  forall h r t, m h = (r, t) -> forallb is_input (calls t) = true.

(** The run of [m] after the events [t0] have been added to the history,
    reported with those events in front. *)
Definition after (t0 : trace) {A : Type} (m : M A) (h : trace)
  : result A * trace :=
  let (r, t) := m (h ++ t0) in (r, t0 ++ t).

(** ** The precedence rules, in the words of the specification *)

(** The value the user supplied on the command line for a destination: its
    last occurrence, if there is one. *)
Fixpoint supplied {A : Type} (dest : cli_opt -> option A)
    (argv : list cli_opt) : option A :=
  match argv with
  | [] => None
  | o :: argv' =>
      match supplied dest argv' with
      | Some v => Some v
      | None => dest o
      end
  end.

Definition first_set {A : Type} (a b : option A) : option A :=
  match a with Some _ => a | None => b end.

(** "The CLI value when the user supplied it, else the file's value, else
    the documented default." *)
Definition precedence (cli file : option pyval) (default : pyval) : pyval :=
  match cli with
  | Some v => v
  | None => match file with Some v => v | None => default end
  end.

(** The argument when it is truthy, else what the file gives. *)
Definition arg_else_file (arg : option pyval) (file : pyval) : pyval :=
  match arg with
  | Some v => if truthy v then v else file
  | None => file
  end.

(** The settings the precedence rule of the specification yields from the
    command line and the file alone. *)
Definition claimed_config (argv : list cli_opt) (d : list (string * pyval))
  : Cfg.t :=
  {| Cfg.host :=
       precedence (option_map PyStr (supplied Dest.host argv)) (assoc "es_host" d) PyNone;
     Cfg.port :=
       precedence (option_map PyInt (supplied Dest.port argv)) (assoc "es_port" d) PyNone;
     Cfg.username :=
       precedence (option_map PyStr (supplied Dest.username argv))
                  (assoc "es_username" d) PyNone;
     Cfg.password :=
       precedence (option_map PyStr (supplied Dest.password argv))
                  (assoc "es_password" d) PyNone;
     Cfg.url_prefix :=
       precedence (option_map PyStr (supplied Dest.url_prefix argv))
                  (assoc "es_url_prefix" d) (PyStr "");
     Cfg.use_ssl :=
       precedence (option_map PyBool (supplied Dest.ssl argv)) (assoc "use_ssl" d) PyNone;
     Cfg.verify_certs :=
       precedence (option_map PyBool (supplied Dest.verify_certs argv))
                  (assoc "verify_certs" d) (PyBool true);
     Cfg.aws_region :=
       precedence (option_map PyStr (supplied Dest.aws_region argv))
                  (assoc "aws_region" d) PyNone;
     Cfg.send_get_body_as :=
       precedence (option_map PyStr (supplied Dest.send_get_body_as argv))
                  (assoc "send_get_body_as" d) (PyStr "GET");
     Cfg.ca_certs := precedence None (assoc "ca_certs" d) PyNone;
     Cfg.client_cert := precedence None (assoc "client_cert" d) PyNone;
     Cfg.client_key := precedence None (assoc "client_key" d) PyNone |}.


(** ** A simulated outside world

    Files hold parsed YAML documents, the operator's replies are keyed by
    prompt (no entry: the operator just presses Enter), and the cluster
    rejects the creation of an index that is already there, a mapping for an
    index that is not, and a copy from an index that is not. *)

Record sim : Type := {
  sim_files : list (string * pyval);
  sim_replies : list (string * string);
  sim_indices : list string
}.

Definition created_by (e : event) : list string :=
  match call_of e with
  | IndicesCreate _ i => if completed e then [i] else []
  | _ => []
  end.

(** The indices present after the history [h]. *)
Definition present (w : sim) (h : trace) : list string :=
  sim_indices w ++ flat_map created_by h.

Definition reply (w : sim) (prompt : string) : string :=
  match assoc prompt (sim_replies w) with Some s => s | None => "" end.

Definition simulate (w : sim) : world :=
  fun h c =>
    match c as c0 return outcome (resp c0) with
    | IsFile p => Returns (str_in p (map fst (sim_files w)))
    | YamlLoad f =>
        match assoc f (sim_files w) with
        | Some d => Returns d
        | None => Raises "IOError"
        end
    | RawInput p => Returns (reply w p)
    | GetPass p => Returns (reply w p)
    | Stdout _ => Returns tt
    | Sleep _ => Returns tt
    | IndicesExists _ i => Returns (str_in i (present w h))
    | IndicesCreate _ i =>
        if str_in i (present w h) then Raises "RequestError" else Returns tt
    | PutMapping _ i _ _ =>
        if str_in i (present w h) then Returns tt else Raises "NotFoundError"
    | Reindex _ s _ =>
        if str_in s (present w h) then Returns tt else Raises "NotFoundError"
    end.

(** Decimal digits only: enough of [int] for the sample runs. *)
Fixpoint digits (s : string) (acc : Z) : option Z :=
  match s with
  | EmptyString => Some acc
  | String c s' =>
      let n := nat_of_ascii c in
      if (Nat.leb 48 n && Nat.leb n 57)%bool
      then digits s' (10 * acc + Z.of_nat (n - 48))
      else None
  end.

Definition sample_int (s : string) : option Z :=
  match s with EmptyString => None | _ => digits s 0 end.

(** A blank answer: nothing but spaces and tabs (nothing at all included). *)
Fixpoint is_blank (s : string) : bool :=
  match s with
  | EmptyString => true
  | String c s' => ((Ascii.eqb c " " || Ascii.eqb c "009") && is_blank s')%bool
  end.

(** ** Sample inputs *)

Definition config_yaml : list (string * pyval) :=
  [("es_host", PyStr "es.file.example");
   ("es_port", PyInt 9200);
   ("es_password", PyStr "secret");
   ("use_ssl", PyBool true)].

(** A working directory with a [config.yaml] and a cluster holding the
    given indices. *)
Definition site (indices : list string) : sim :=
  {| sim_files := [("config.yaml", PyDict config_yaml)];
     sim_replies := [];
     sim_indices := indices |}.

(** The same site without [config.yaml], the settings file being elsewhere. *)
Definition site_with_custom_config : sim :=
  {| sim_files := [("/etc/elastalert.yaml", PyDict config_yaml)];
     sim_replies := [];
     sim_indices := [] |}.

(** An operator who answers the index prompt with a single space. *)
Definition blank_operator : sim :=
  {| sim_files := [];
     sim_replies := [("New index name? (Default elastalert_status) ", " ")];
     sim_indices := [] |}.

Definition env_with_host : Environ :=
  {| ES_HOST := Some "es.env.example"; ES_PORT := None; ES_USERNAME := None;
     ES_PASSWORD := None; ES_USE_SSL := Some false |}.


(** The client [main] builds at that site when the command line has no
    connection options. *)
Definition site_client : Client.t :=
  {| Client.host := PyStr "es.file.example";
     Client.port := PyInt 9200;
     Client.timeout := PyInt 60;
     Client.use_ssl := PyBool true;
     Client.verify_certs := PyBool true;
     Client.connection_class := "RequestsHttpConnection";
     Client.http_auth := NoAuth;
     Client.url_prefix := PyStr "";
     Client.send_get_body_as := PyStr "GET";
     Client.client_cert := PyNone;
     Client.ca_certs := PyNone;
     Client.client_key := PyNone |}.

Definition aws_cfg : Cfg.t :=
  {| Cfg.host := PyStr "search.example.amazonaws.com";
     Cfg.port := PyInt 443;
     Cfg.username := PyStr "admin";
     Cfg.password := PyStr "secret";
     Cfg.url_prefix := PyStr "";
     Cfg.use_ssl := PyBool true;
     Cfg.verify_certs := PyBool true;
     Cfg.aws_region := PyStr "eu-west-1";
     Cfg.send_get_body_as := PyStr "GET";
     Cfg.ca_certs := PyNone;
     Cfg.client_cert := PyNone;
     Cfg.client_key := PyNone |}.

(** ** Observations on runs *)

(** A question put to the operator. *)
Definition is_prompt (c : call) : bool :=
  match c with RawInput _ | GetPass _ => true | _ => false end.

Definition is_dict (v : pyval) : bool :=
  match v with PyDict _ => true | _ => false end.

(** The client a cluster call goes through. *)
Definition client_of (c : call) : option Client.t :=
  match c with
  | IndicesExists es _ | IndicesCreate es _ | PutMapping es _ _ _
  | Reindex es _ _ => Some es
  | _ => None
  end.

(** The index a creation call names. *)
Definition created_index (c : call) : option string :=
  match c with IndicesCreate _ i => Some i | _ => None end.

(** The exception an event ended with, if it did. *)
Definition raised (e : event) : option exn :=
  match e with Ev _ (Raises x) => Some x | Ev _ (Returns _) => None end.

(** What the operator typed, for a prompt that returned. *)
Definition replied (e : event) : option string :=
  match e with
  | Ev c o =>
      match c as c0 return outcome (resp c0) -> option string with
      | RawInput _ | GetPass _ =>
          fun o => match o with Returns s => Some s | Raises _ => None end
      | _ => fun _ => None
      end o
  end.

(** A computation all of whose calls are of one kind. *)
Definition only_calls (P : call -> bool) {A : Type} (m : M A) : Prop :=
  forall h r t, m h = (r, t) -> forallb P (calls t) = true.

(** A computation in which an event that raised is the last one, and its
    exception the result. *)
Definition abrupt {A : Type} (m : M A) : Prop :=
  forall h r t pre e post x,
    m h = (r, t) -> t = pre ++ e :: post -> raised e = Some x ->
    post = [] /\ r = Err x.

(** The names of lines 150-154. *)
Definition fixed_indices : list string :=
  ["elastalert"; "elastalert_status"; "elastalert_silence"; "elastalert_error";
   "elastalert_past"].

(** The prompts of lines 80-93, in program order. *)
Definition host_prompt : call := RawInput "Enter Elasticsearch host: ".
Definition port_prompt : call := RawInput "Enter Elasticsearch port: ".
Definition ssl_prompt : call := RawInput "Use SSL? t/f: ".
Definition verify_prompt : call := RawInput "Verify TLS certificates? t/f: ".
Definition username_prompt : call :=
  RawInput "Enter optional basic-auth username (or leave blank): ".
Definition password_prompt : call :=
  GetPass "Enter optional basic-auth password (or leave blank): ".
Definition url_prefix_prompt : call :=
  RawInput "Enter optional Elasticsearch URL prefix (prepends a keyword to the URL of every request): ".
Definition index_prompt : call :=
  RawInput "New index name? (Default elastalert_status) ".
Definition old_index_prompt : call :=
  RawInput "Name of existing index to copy? (Default None) ".

(** The last line the script prints. *)
Definition is_done (c : call) : bool :=
  match c with Stdout l => String.eqb l "Done!" | _ => false end.

(** The question for the port. *)
Definition asks_port (c : call) : bool :=
  match c with
  | RawInput p => String.eqb p "Enter Elasticsearch port: "
  | _ => false
  end.

(** The username the no-file branch starts from (line 77). *)
Definition given_username (args : Args.t) : pyval :=
  if_truthy (py_str (Args.username args)) PyNone.

(** Whether the no-file branch asks for credentials (line 89). *)
Definition asks_credentials (args : Args.t) : bool :=
  match Args.no_auth args, given_username args with
  | None, PyNone => true
  | _, _ => false
  end.

(** The questions the no-file branch asks, given the SSL setting it arrives
    at: one for each setting the arguments leave open. *)
Definition interactive_prompts (args : Args.t) (use_ssl : bool) : list call :=
  (if truthy (py_str (Args.host args)) then [] else [host_prompt])
  ++ (if truthy (py_int (Args.port args)) then [] else [port_prompt])
  ++ (match Args.ssl args with Some _ => [] | None => [ssl_prompt] end)
  ++ (if use_ssl
      then match Args.verify_certs args with
           | Some _ => []
           | None => [verify_prompt]
           end
      else [])
  ++ (if asks_credentials args then [username_prompt; password_prompt] else [])
  ++ (match Args.url_prefix args with Some _ => [] | None => [url_prefix_prompt] end).

(** Two namespaces that differ at most in [aws_region] and
    [send_get_body_as]. *)
Definition same_but_region (a b : Args.t) : Prop :=
  Args.host a = Args.host b /\ Args.port a = Args.port b /\
  Args.username a = Args.username b /\ Args.password a = Args.password b /\
  Args.url_prefix a = Args.url_prefix b /\ Args.no_auth a = Args.no_auth b /\
  Args.ssl a = Args.ssl b /\ Args.verify_certs a = Args.verify_certs b /\
  Args.index a = Args.index b /\ Args.old_index a = Args.old_index b /\
  Args.profile a = Args.profile b /\ Args.timeout a = Args.timeout b /\
  Args.config a = Args.config b.

(** A working directory whose [config.yaml] holds the given document, and an
    empty cluster. *)
Definition site_with_document (doc : pyval) : sim :=
  {| sim_files := [("config.yaml", doc)];
     sim_replies := [];
     sim_indices := [] |}.

(** No config file, an operator who gives the listed answers (and just
    presses Enter otherwise), and an empty cluster. *)
Definition operator (replies : list (string * string)) : sim :=
  {| sim_files := []; sim_replies := replies; sim_indices := [] |}.

Definition usual_replies : list (string * string) :=
  [("Enter Elasticsearch host: ", "localhost");
   ("Enter Elasticsearch port: ", "9200");
   ("Use SSL? t/f: ", "True");
   ("Verify TLS certificates? t/f: ", "no");
   ("Enter optional basic-auth username (or leave blank): ", "admin");
   ("Enter optional basic-auth password (or leave blank): ", "secret")].

(** No config file, the usual answers, and a cluster that already holds
    [elastalert_status]; and the trace of [main] there with an empty command
    line. *)
Definition interactive_site : sim :=
  {| sim_files := [];
     sim_replies := usual_replies;
     sim_indices := ["elastalert_status"] |}.

Definition interactive_trace : trace :=
  Eval vm_compute in
    snd (main (simulate interactive_site) sample_int no_environ [] []).

(** * Properties *)

(** ** The command line *)

Lemma stored_supplied {A : Type} (dest : cli_opt -> option A) argv default :
  stored dest argv default = first_set (supplied dest argv) default.
Proof.
  unfold stored. revert default. induction argv as [|o argv IH]; intros default.
  - reflexivity.
  - cbn. rewrite IH. destruct (supplied dest argv); [reflexivity|].
    cbn. destruct (dest o); reflexivity.
Qed.

Lemma supplied_app {A : Type} (dest : cli_opt -> option A) l1 l2 :
  supplied dest (l1 ++ l2) = first_set (supplied dest l2) (supplied dest l1).
Proof.
  induction l1 as [|o l1 IH]; cbn.
  - destruct (supplied dest l2); reflexivity.
  - rewrite IH. destruct (supplied dest l2); reflexivity.
Qed.

Lemma supplied_absent {A : Type} (dest : cli_opt -> option A) argv :
  (forall o, In o argv -> dest o = None) -> supplied dest argv = None.
Proof.
  induction argv as [|o argv IH]; intros H; [reflexivity|].
  cbn. rewrite IH; [|intros o' Ho'; apply H; right; exact Ho'].
  apply H. left. reflexivity.
Qed.

Lemma file_config_dict args d :
  exists cfg, file_config args (PyDict d) = Ok cfg.
Proof. eexists. reflexivity. Qed.

Lemma first_set_None_r {A : Type} (a : option A) : first_set a None = a.
Proof. destruct a; reflexivity. Qed.

(** A destination no occurrence on the command line writes to. *)
Ltac not_on_command_line H :=
  apply supplied_absent; intros o Ho; destruct o; try reflexivity;
  exfalso; eapply H; eauto.

Lemma nonempty_truthy v : v <> "" -> truthy (PyStr v) = true.
Proof.
  intros H. cbn. destruct (String.eqb v "") eqn:E; [|reflexivity].
  apply String.eqb_eq in E. contradiction.
Qed.


(** ** Resolution when a config file was found *)


(** C1 (as amended).  In file-present mode: host, port, username and
    password are the value [argparse] stored (the last occurrence on the
    command line, else the [ES_*] variable) when that value is non-empty,
    respectively non-zero, and otherwise what the file gives ([None] when the
    key is missing); the URL prefix is the command-line value when given,
    else the file's, else the empty string; [use_ssl] is the command-line
    flag when given, else [ES_USE_SSL] when set, else the file's, else
    [None]; [verify_certs] is the command-line flag when given, and
    otherwise false exactly when the file's value is [False]; the
    certificate settings are the file's, else [None]; and when [--aws-region]
    and [--send_get_body_as] are not on the command line, the region and the
    request method are the file's, else [None] and [GET]. *)
Theorem file_mode_precedence env argv d :
  exists cfg,
    file_config (parse_args env argv) (PyDict d) = Ok cfg /\
    Cfg.host cfg =
      arg_else_file
        (option_map PyStr (first_set (supplied Dest.host argv) (ES_HOST env)))
        (precedence None (assoc "es_host" d) PyNone) /\
    Cfg.port cfg =
      arg_else_file
        (option_map PyInt (first_set (supplied Dest.port argv) (ES_PORT env)))
        (precedence None (assoc "es_port" d) PyNone) /\
    Cfg.username cfg =
      arg_else_file
        (option_map PyStr
           (first_set (supplied Dest.username argv) (ES_USERNAME env)))
        (precedence None (assoc "es_username" d) PyNone) /\
    Cfg.password cfg =
      arg_else_file
        (option_map PyStr
           (first_set (supplied Dest.password argv) (ES_PASSWORD env)))
        (precedence None (assoc "es_password" d) PyNone) /\
    Cfg.url_prefix cfg =
      precedence (option_map PyStr (supplied Dest.url_prefix argv))
                 (assoc "es_url_prefix" d) (PyStr "") /\
    Cfg.use_ssl cfg =
      precedence
        (option_map PyBool (first_set (supplied Dest.ssl argv) (ES_USE_SSL env)))
        (assoc "use_ssl" d) PyNone /\
    Cfg.verify_certs cfg =
      precedence (option_map PyBool (supplied Dest.verify_certs argv)) None
        (PyBool (is_not_False (precedence None (assoc "verify_certs" d) PyNone))) /\
    Cfg.ca_certs cfg = precedence None (assoc "ca_certs" d) PyNone /\
    Cfg.client_cert cfg = precedence None (assoc "client_cert" d) PyNone /\
    Cfg.client_key cfg = precedence None (assoc "client_key" d) PyNone /\
    (supplied Dest.aws_region argv = None ->
     Cfg.aws_region cfg = Cfg.aws_region (claimed_config argv d)) /\
    (supplied Dest.send_get_body_as argv = None ->
     Cfg.send_get_body_as cfg = Cfg.send_get_body_as (claimed_config argv d)).
Proof.
  eexists. split; [reflexivity|].
  cbn [Cfg.host Cfg.port Cfg.username Cfg.password Cfg.url_prefix Cfg.use_ssl
       Cfg.verify_certs Cfg.ca_certs Cfg.client_cert Cfg.client_key
       Cfg.aws_region Cfg.send_get_body_as claimed_config].
  unfold parse_args.
  cbn [Args.host Args.port Args.username Args.password Args.url_prefix
       Args.ssl Args.verify_certs].
  rewrite !stored_supplied, !first_set_None_r.
  repeat split.
  - destruct (first_set _ _); reflexivity.
  - destruct (first_set _ _); reflexivity.
  - destruct (first_set _ _); reflexivity.
  - destruct (first_set _ _); reflexivity.
  - destruct (supplied _ _); reflexivity.
  - destruct (first_set _ _); reflexivity.
  - destruct (supplied _ _); reflexivity.
  - intros ->. reflexivity.
  - intros ->. reflexivity.
Qed.

(** C6 (as amended).  In file-present mode, when neither [--verify-certs]
    nor [--no-verify-certs] is given, the resolved [verify_certs] is false
    exactly when the file sets [verify_certs] to [False], and true otherwise;
    when moreover the file sets [use_ssl] to true and neither [--ssl] nor
    [--no-ssl] is given and [ES_USE_SSL] is not set, the resolved [use_ssl]
    is true, and with the [verify_certs] key missing the resolved
    [verify_certs] is true. *)
Theorem verify_certs_absent_is_true env argv d :
  ~ In OptVerifyCerts argv ->
  ~ In OptNoVerifyCerts argv ->
  exists cfg,
    file_config (parse_args env argv) (PyDict d) = Ok cfg /\
    (Cfg.verify_certs cfg = PyBool false <->
     assoc "verify_certs" d = Some (PyBool false)) /\
    (Cfg.verify_certs cfg <> PyBool false -> Cfg.verify_certs cfg = PyBool true) /\
    (assoc "use_ssl" d = Some (PyBool true) ->
     assoc "verify_certs" d = None ->
     ~ In OptSsl argv -> ~ In OptNoSsl argv -> ES_USE_SSL env = None ->
     Cfg.use_ssl cfg = PyBool true /\ Cfg.verify_certs cfg = PyBool true).
Proof.
  intros Hv1 Hv2.
  assert (Hv : supplied Dest.verify_certs argv = None).
  { apply supplied_absent. intros o Ho. destruct o; try reflexivity; contradiction. }
  eexists. split; [reflexivity|].
  cbn [Cfg.verify_certs Cfg.use_ssl]. unfold parse_args.
  cbn [Args.verify_certs Args.ssl]. rewrite !stored_supplied, Hv.
  cbn [first_set py_bool if_not_none].
  split; [|split].
  - destruct (assoc "verify_certs" d) as [[| [|] | | | |]|]; cbn;
      split; intros H; try discriminate; reflexivity.
  - destruct (assoc "verify_certs" d) as [[| [|] | | | |]|]; cbn;
      intros H; try reflexivity; contradiction.
  - intros Hssl Habsent Hs1 Hs2 Henv.
    replace (supplied Dest.ssl argv) with (@None bool).
    + rewrite Henv, Hssl, Habsent. split; reflexivity.
    + symmetry. apply supplied_absent. intros o Ho.
      destruct o; try reflexivity; contradiction.
Qed.

(** C5.  When the resolved region is set, the strategy attached to the
    client is the signed-request strategy built from that region and the
    profile given on the command line; it is not basic authentication,
    whatever the username. *)
Theorem region_selects_signed_requests args cfg :
  Cfg.aws_region cfg <> PyNone ->
  Client.http_auth (connect args cfg) =
    AwsSignedRequest (Cfg.aws_region cfg) (py_str (Args.profile args)) /\
  forall username password,
    Client.http_auth (connect args cfg) <> BasicAuth username password.
Proof.
  intros Hset. unfold connect. cbn [Client.http_auth]. unfold Auth.
  destruct (Cfg.aws_region cfg); try contradiction; split;
    try reflexivity; intros; discriminate.
Qed.

(** ** Runs *)

Lemma bind_inv {A B : Type} (m : M A) (f : A -> M B) h r t :
  bind m f h = (r, t) ->
  (exists e, m h = (Err e, t) /\ r = Err e) \/
  (exists a t1 t2, m h = (Ok a, t1) /\ f a (h ++ t1) = (r, t2) /\ t = t1 ++ t2).
Proof.
  unfold bind. destruct (m h) as [[a|e] t1].
  - destruct (f a (h ++ t1)) as [r2 t2] eqn:Hf. intros H. inversion H; subst.
    right. exists a, t1, t2. auto.
  - intros H. inversion H; subst. left. exists e. auto.
Qed.

Lemma bind_ext {A B : Type} (m : M A) (f g : A -> M B) h :
  (forall a h', f a h' = g a h') -> bind m f h = bind m g h.
Proof.
  intros Hfg. unfold bind. destruct (m h) as [[a|e] t1]; [|reflexivity].
  rewrite Hfg. reflexivity.
Qed.

Lemma bind_assoc {A B C : Type} (m : M A) (f : A -> M B) (g : B -> M C) h :
  bind (bind m f) g h = bind m (fun a => bind (f a) g) h.
Proof.
  unfold bind. destruct (m h) as [[a|e] t1]; [|reflexivity].
  destruct (f a (h ++ t1)) as [[b|e] t2]; [|reflexivity].
  rewrite <- app_assoc. destruct (g b (h ++ t1 ++ t2)) as [r t3].
  rewrite app_assoc. reflexivity.
Qed.

Lemma bind_ret_l {A B : Type} (a : A) (f : A -> M B) h :
  bind (ret a) f h = f a h.
Proof.
  unfold bind, ret. rewrite app_nil_r. destruct (f a h). reflexivity.
Qed.

Lemma bind_ret_r (m : M unit) h : bind m (fun _ => ret tt) h = m h.
Proof.
  unfold bind, ret. destruct (m h) as [[[]|e] t1]; [|reflexivity].
  rewrite app_nil_r. reflexivity.
Qed.

(** ** Lists cut at an element *)

(** When a list [A ++ B] is cut at an element that is of a kind [A] has
    none of, the cut lies in [B]. *)
Lemma cut_after {X : Type} (p : X -> bool) (A B pre : list X) e post :
  forallb (fun x => negb (p x)) A = true ->
  A ++ B = pre ++ e :: post ->
  p e = true ->
  exists mid, pre = A ++ mid /\ B = mid ++ e :: post.
Proof.
  revert pre. induction A as [|a A IH]; intros pre HA Heq He.
  - exists pre. auto.
  - cbn in HA. apply andb_true_iff in HA. destruct HA as [Ha HA].
    destruct pre as [|x pre]; cbn in Heq; inversion Heq; subst.
    + rewrite He in Ha. discriminate.
    + destruct (IH pre HA H1 He) as (mid & -> & ->). exists mid. auto.
Qed.

(** When it is cut at an element of a kind [B] has none of, the cut lies
    in [A]. *)
Lemma cut_before {X : Type} (p : X -> bool) (A B pre : list X) e post :
  forallb (fun x => negb (p x)) B = true ->
  A ++ B = pre ++ e :: post ->
  p e = true ->
  exists rest, A = pre ++ e :: rest /\ post = rest ++ B.
Proof.
  revert pre. induction A as [|a A IH]; intros pre HB Heq He.
  - cbn in Heq. subst B. rewrite forallb_app in HB.
    apply andb_true_iff in HB. destruct HB as [_ HB]. cbn in HB.
    rewrite He in HB. discriminate.
  - destruct pre as [|x pre]; cbn in Heq; inversion Heq; subst.
    + exists A. auto.
    + destruct (IH pre HB H1 He) as (rest & -> & ->). exists rest. auto.
Qed.

Lemma forallb_In {X : Type} (p : X -> bool) (l : list X) x :
  forallb p l = true -> In x l -> p x = true.
Proof. intros H. rewrite forallb_forall in H. apply H. Qed.

Section Theory.

Variable oracle : world.
Variable int_of_str : string -> option Z.

Lemma perform_run c h :
  perform oracle c h =
  (match answer oracle h c with Returns r => Ok r | Raises e => Err e end,
   [Ev c (answer oracle h c)]).
Proof. reflexivity. Qed.

(** The creation path of [provision] is the straight-line block [steps]. *)
Lemma provision_unfold es index old_index h :
  provision oracle es index old_index h =
  (found <- perform oracle (IndicesExists es index) ;;
   if found : bool then print oracle (skip_notice index)
   else run_calls oracle (steps es index old_index)) h.
Proof.
  unfold provision. apply bind_ext. intros [|] h1; [reflexivity|].
  unfold steps, migration_calls, creation_calls, mapping_calls, sleep, print.
  cbn [app run_calls].
  do 12 (apply bind_ext; intros ? ?).
  destruct (truthy (PyStr old_index)); cbn [app run_calls].
  - rewrite bind_assoc. apply bind_ext; intros ? ?.
    apply bind_ext; intros ? ?. symmetry. apply bind_ret_r.
  - rewrite bind_ret_l. symmetry. apply bind_ret_r.
Qed.

Lemma run_calls_app A B h r t :
  run_calls oracle (A ++ B) h = (r, t) ->
  (exists x, r = Err x /\ run_calls oracle A h = (Err x, t)) \/
  (exists tA tB, run_calls oracle A h = (Ok tt, tA) /\
                 run_calls oracle B (h ++ tA) = (r, tB) /\ t = tA ++ tB).
Proof.
  revert h r t. induction A as [|c A IH]; intros h r t H.
  - right. exists [], t. cbn. rewrite app_nil_r. auto.
  - cbn [app run_calls] in H. apply bind_inv in H.
    destruct H as [(e & Hc & ->) | (a & t1 & t2 & Hc & Hk & ->)].
    + left. exists e. split; [reflexivity|].
      cbn [run_calls]. unfold bind. rewrite Hc. reflexivity.
    + apply IH in Hk.
      destruct Hk as [(x & -> & HA) | (tA & tB & HA & HB & ->)].
      * left. exists x. split; [reflexivity|].
        cbn [run_calls]. unfold bind. rewrite Hc, HA. reflexivity.
      * right. exists (t1 ++ tA), tB. split; [|split].
        -- cbn [run_calls]. unfold bind. rewrite Hc, HA. reflexivity.
        -- rewrite app_assoc. exact HB.
        -- rewrite app_assoc. reflexivity.
Qed.

(** A block that ran to its end made exactly its calls, and all returned. *)
Lemma run_calls_ok cs h t :
  run_calls oracle cs h = (Ok tt, t) ->
  calls t = cs /\ forallb completed t = true.
Proof.
  revert h t. induction cs as [|c cs IH]; intros h t H.
  - inversion H. auto.
  - cbn [run_calls] in H. apply bind_inv in H.
    destruct H as [(e & _ & He) | (a & t1 & t2 & Hc & Hk & ->)]; [discriminate|].
    rewrite perform_run in Hc.
    destruct (answer oracle h c) as [r0|e0] eqn:Ho; inversion Hc; subst.
    apply IH in Hk. destruct Hk as [Hcs Hall].
    unfold calls in *. cbn. rewrite Hcs, Hall. auto.
Qed.

(** A block that raised stopped at the call that raised; the calls before
    it returned, and they are the block's calls up to that point. *)
Lemma run_calls_err cs h x t :
  run_calls oracle cs h = (Err x, t) ->
  exists pre c rest,
    cs = calls pre ++ c :: rest /\
    forallb completed pre = true /\
    answer oracle (h ++ pre) c = Raises x /\
    t = pre ++ [Ev c (Raises x)].
Proof.
  revert h t. induction cs as [|c cs IH]; intros h t H.
  - inversion H.
  - cbn [run_calls] in H. apply bind_inv in H.
    destruct H as [(e & Hc & He) | (a & t1 & t2 & Hc & Hk & ->)].
    + rewrite perform_run in Hc.
      destruct (answer oracle h c) as [r0|e0] eqn:Ho; inversion Hc; subst.
      inversion He; subst.
      exists [], c, cs. rewrite app_nil_r. auto.
    + rewrite perform_run in Hc.
      destruct (answer oracle h c) as [r0|e0] eqn:Ho; inversion Hc; subst.
      apply IH in Hk. destruct Hk as (pre & c' & rest & -> & Hall & Hraise & ->).
      exists (Ev c (Returns a) :: pre), c', rest.
      cbn. rewrite Hall. rewrite <- app_assoc in Hraise. auto.
Qed.

(** Wherever the trace of a block is cut, the calls before the cut are the
    block's calls up to there and returned; an event that raised is the
    last one. *)
Lemma run_calls_cut cs h r t pre e post :
  run_calls oracle cs h = (r, t) ->
  t = pre ++ e :: post ->
  forallb completed pre = true /\
  (exists rest, cs = calls pre ++ call_of e :: rest) /\
  (completed e = false -> post = [] /\ exists x, r = Err x).
Proof.
  revert h t pre. induction cs as [|c cs IH]; intros h t pre H Ht.
  - inversion H; subst. destruct pre; discriminate.
  - cbn [run_calls] in H. apply bind_inv in H. rewrite perform_run in H.
    destruct H as [(x & Hc & ->) | (a & t1 & t2 & Hc & Hk & ->)].
    + destruct (answer oracle h c) as [r0|e0] eqn:Ho; inversion Hc; subst.
      destruct pre as [|e1 pre]; cbn in H1.
      * inversion H1; subst. cbn. split; [reflexivity|]. split; eauto.
      * inversion H1. destruct pre; discriminate.
    + destruct (answer oracle h c) as [r0|e0] eqn:Ho; inversion Hc; subst.
      destruct pre as [|e1 pre]; cbn in Ht.
      * inversion Ht; subst. cbn. split; [reflexivity|].
        split; [eauto|discriminate].
      * inversion Ht; subst.
        destruct (IH _ _ _ Hk eq_refl) as (Hpre & (rest & ->) & Hlast).
        cbn. rewrite Hpre. split; [reflexivity|]. split; eauto.
Qed.

Lemma run_calls_In cs h r t e :
  run_calls oracle cs h = (r, t) -> In e t -> In (call_of e) cs.
Proof.
  intros H Hin. apply in_split in Hin. destruct Hin as (pre & post & ->).
  destruct (run_calls_cut _ _ _ _ _ _ _ H eq_refl) as (_ & (rest & ->) & _).
  apply in_or_app. right. left. reflexivity.
Qed.

(** [print] and [time.sleep] never raise. *)
Lemma raised_not_infallible h c x :
  answer oracle h c = Raises x -> infallible c = false.
Proof. destruct c; cbn; intros H; try reflexivity; discriminate. Qed.

(** *** The three ways the existence check can go *)

Lemma provision_existing es index old_index h :
  answer oracle h (IndicesExists es index) = Returns true ->
  provision oracle es index old_index h =
  (Ok tt, [Ev (IndicesExists es index) (Returns true);
           Ev (Stdout (skip_notice index)) (Returns tt)]).
Proof.
  intros H. rewrite provision_unfold. unfold bind. rewrite perform_run, H.
  reflexivity.
Qed.

Lemma provision_absent es index old_index h :
  answer oracle h (IndicesExists es index) = Returns false ->
  exists r t',
    provision oracle es index old_index h =
      (r, Ev (IndicesExists es index) (Returns false) :: t') /\
    run_calls oracle (steps es index old_index)
      (h ++ [Ev (IndicesExists es index) (Returns false)]) = (r, t').
Proof.
  intros H. rewrite provision_unfold. unfold bind. rewrite perform_run, H.
  destruct (run_calls oracle _ _) as [r t']. exists r, t'. auto.
Qed.

Lemma provision_check_raises es index old_index h x :
  answer oracle h (IndicesExists es index) = Raises x ->
  provision oracle es index old_index h =
  (Err x, [Ev (IndicesExists es index) (Raises x)]).
Proof.
  intros H. rewrite provision_unfold. unfold bind. rewrite perform_run, H.
  reflexivity.
Qed.

(** The run of [provision], whatever the check answered. *)
Lemma provision_run es index old_index h r t :
  provision oracle es index old_index h = (r, t) ->
  (answer oracle h (IndicesExists es index) = Returns true /\ r = Ok tt /\
   t = [Ev (IndicesExists es index) (Returns true);
        Ev (Stdout (skip_notice index)) (Returns tt)]) \/
  (exists x, answer oracle h (IndicesExists es index) = Raises x /\
             r = Err x /\ t = [Ev (IndicesExists es index) (Raises x)]) \/
  (exists t', answer oracle h (IndicesExists es index) = Returns false /\
              t = Ev (IndicesExists es index) (Returns false) :: t' /\
              run_calls oracle (steps es index old_index)
                (h ++ [Ev (IndicesExists es index) (Returns false)]) = (r, t')).
Proof.
  intros H.
  destruct (answer oracle h (IndicesExists es index)) as [[|]|x] eqn:Ho.
  - rewrite (provision_existing _ _ _ _ Ho) in H. inversion H. auto.
  - destruct (provision_absent es index old_index h Ho) as (r' & t' & Hp & Hr).
    rewrite Hp in H. inversion H; subst. right. right. exists t'. auto.
  - rewrite (provision_check_raises _ _ _ _ _ Ho) in H. inversion H.
    right. left. exists x. auto.
Qed.

Lemma truthy_str s : truthy (PyStr s) = true <-> s <> "".
Proof.
  cbn. rewrite negb_true_iff. apply String.eqb_neq.
Qed.

Lemma no_create_after_creation es index old_index :
  forallb (fun c => negb (is_create c))
    ([Sleep 2] ++ mapping_calls es
     ++ [Stdout ("New index " ++ index ++ " created")]
     ++ migration_calls es index old_index ++ [Stdout "Done!"]) = true.
Proof. unfold migration_calls. destruct (truthy _); reflexivity. Qed.

(** The events of a short explicit trace. *)
Ltac among :=
  repeat match goal with
         | H : In _ (_ :: _) |- _ => destruct H as [H|H]; [subst|]
         | H : In _ [] |- _ => destruct H
         end.

(** C7 (as amended).  In a run in which the target index does not exist,
    the first creation call is issued whatever the target is; when no
    creation call raises, the five creation calls for elastalert,
    elastalert_status, elastalert_silence, elastalert_error and
    elastalert_past are issued in that order and followed by [sleep(2)];
    and every mapping call in the run comes after the check, the five
    creation calls and [sleep(2)], all of which returned. *)
Theorem creation_precedes_mappings es index old_index h r t :
  provision oracle es index old_index h = (r, t) ->
  answer oracle h (IndicesExists es index) = Returns false ->
  (exists o rest,
      t = Ev (IndicesExists es index) (Returns false)
          :: Ev (IndicesCreate es "elastalert") o :: rest) /\
  ((forall e, In e t -> is_create (call_of e) = true -> completed e = true) ->
   exists rest,
     calls t = IndicesExists es index :: creation_calls es ++ Sleep 2 :: rest) /\
  (forall pre e post,
      t = pre ++ e :: post ->
      is_put_mapping (call_of e) = true ->
      forallb completed pre = true /\
      exists mid,
        calls pre = IndicesExists es index :: creation_calls es ++ Sleep 2 :: mid).
Proof.
  intros Hrun Hcheck.
  destruct (provision_absent es index old_index h Hcheck) as (r' & t' & Hp & Hr).
  rewrite Hp in Hrun. inversion Hrun; subst r' t. clear Hrun Hp.
  split; [|split].
  - unfold steps, creation_calls in Hr. cbn [app run_calls] in Hr.
    apply bind_inv in Hr. rewrite perform_run in Hr.
    destruct Hr as [(x & Hc & _) | (a & t1 & t2 & Hc & _ & ->)];
      inversion Hc; subst; do 2 eexists; reflexivity.
  - intros Hall. unfold steps in Hr. apply run_calls_app in Hr.
    destruct Hr as [(x & -> & HA) | (tA & tB & HA & HB & ->)].
    + exfalso. apply run_calls_err in HA.
      destruct HA as (pre & c & rest & Hcs & _ & _ & ->).
      assert (Hc : is_create c = true).
      { apply (forallb_In is_create (creation_calls es)); [reflexivity|].
        rewrite Hcs. apply in_or_app. right. left. reflexivity. }
      specialize (Hall (Ev c (Raises x))). cbn in Hall.
      assert (false = true); [|discriminate].
      apply Hall; [|exact Hc]. right. apply in_or_app. right. left. reflexivity.
    + apply run_calls_ok in HA. destruct HA as [HA _].
      cbn [app run_calls] in HB. apply bind_inv in HB. rewrite perform_run in HB.
      cbn in HB. destruct HB as [(x & Hc & _) | (a & t1 & t2 & Hc & _ & ->)];
        inversion Hc; subst.
      exists (calls t2). unfold calls in *. cbn. rewrite map_app, HA. reflexivity.
  - intros pre e post Ht He.
    destruct pre as [|e0 pre]; cbn in Ht; inversion Ht; subst.
    + discriminate.
    + destruct (run_calls_cut _ _ _ _ _ _ _ Hr eq_refl) as (Hpre & (rest & Hs) & _).
      cbn. split; [exact Hpre|].
      unfold steps in Hs. rewrite app_assoc in Hs.
      destruct (cut_after is_put_mapping (creation_calls es ++ [Sleep 2])
                  _ _ _ _ eq_refl Hs He)
        as (mid & Hmid & _).
      exists mid. unfold calls in *. rewrite Hmid, <- app_assoc. reflexivity.
Qed.

(** C3 (as amended).  The creation calls are made one after another with
    no error handling.  Wherever a creation call stands in a run, every call
    before it returned, and those calls are the existence check and the
    creation calls that precede it in program order; and a creation call that
    raises is the last event of the run, which ends with that exception: no
    later creation call, no mapping call and no copy is issued. *)
Theorem failed_creation_ends_run es index old_index h r t pre e post :
  provision oracle es index old_index h = (r, t) ->
  t = pre ++ e :: post ->
  is_create (call_of e) = true ->
  forallb completed pre = true /\
  (exists done rest,
      creation_calls es = done ++ call_of e :: rest /\
      calls pre = IndicesExists es index :: done) /\
  (completed e = false -> post = [] /\ exists x, r = Err x).
Proof.
  intros Hrun Ht He.
  assert (Hin : In e t) by (subst t; apply in_elt).
  apply provision_run in Hrun.
  destruct Hrun as [(_ & _ & Hex) | [(x & _ & _ & Hex) | (t' & _ & Hex & Hr)]].
  - rewrite Hex in Hin. among; discriminate.
  - rewrite Hex in Hin. among; discriminate.
  - rewrite Hex in Ht. destruct pre as [|e0 pre]; cbn in Ht; inversion Ht; subst.
    + discriminate.
    + destruct (run_calls_cut _ _ _ _ _ _ _ Hr eq_refl)
        as (Hpre & (rest & Hs) & Hlast).
      split; [exact Hpre|]. split; [|exact Hlast].
      unfold steps in Hs.
      destruct (cut_before is_create _ _ _ _ _
                  (no_create_after_creation es index old_index) Hs He)
        as (rest' & Hc & _).
      exists (calls pre), rest'. auto.
Qed.

(** Where a copy is found in a run, it is the copy from the old index to
    the target, the old index is not empty, and it comes right after the
    whole creation path up to the announcement of the copy. *)
Lemma reindex_cut es index old_index h r t pre e post :
  provision oracle es index old_index h = (r, t) ->
  t = pre ++ e :: post ->
  is_reindex (call_of e) = true ->
  call_of e = Reindex es old_index index /\ old_index <> "" /\
  forallb completed pre = true /\
  calls pre =
    IndicesExists es index :: creation_calls es ++ Sleep 2 :: mapping_calls es
    ++ [Stdout ("New index " ++ index ++ " created");
        Stdout ("Copying all data from old index '" ++ old_index
                ++ "' to new index '" ++ index ++ "'")].
Proof.
  intros Hrun Ht He.
  assert (Hin : In e t) by (subst t; apply in_elt).
  apply provision_run in Hrun.
  destruct Hrun as [(_ & _ & Hex) | [(x & _ & _ & Hex) | (t' & _ & Hex & Hr)]].
  - rewrite Hex in Hin. among; discriminate.
  - rewrite Hex in Hin. among; discriminate.
  - clear Hin. rewrite Hex in Ht.
    destruct pre as [|e0 pre]; cbn in Ht; inversion Ht; subst.
    + discriminate.
    + destruct (run_calls_cut _ _ _ _ _ _ _ Hr eq_refl) as (Hpre & (rest & Hs) & _).
      unfold steps, migration_calls in Hs.
      destruct (truthy (PyStr old_index)) eqn:Hold.
      * destruct (cut_after is_reindex
                    (creation_calls es ++ [Sleep 2] ++ mapping_calls es
                     ++ [Stdout ("New index " ++ index ++ " created");
                         Stdout ("Copying all data from old index '" ++ old_index
                                 ++ "' to new index '" ++ index ++ "'")])
                    [Reindex es old_index index; Stdout "Done!"]
                    _ _ _ eq_refl Hs He) as (mid & Hmid & HB).
        destruct mid as [|m [|m' mid]]; cbn in HB; inversion HB; subst.
        -- rewrite app_nil_r in Hmid. apply truthy_str in Hold.
           cbn. rewrite Hpre. unfold calls in *. rewrite Hmid. auto.
        -- rewrite <- H1 in He. discriminate.
        -- destruct mid; discriminate.
      * exfalso.
        assert (Hc : negb (is_reindex (call_of e)) = true).
        { apply (forallb_In (fun c => negb (is_reindex c))
                   (calls pre ++ call_of e :: rest)).
          - rewrite <- Hs. reflexivity.
          - apply in_elt. }
        rewrite He in Hc. discriminate.
Qed.

(** C4 (as amended).  The copy is never made when the old index is empty,
    and never when the target index already exists.  Whenever it is made,
    it copies from the old index to the target index, the old index is not
    empty, and it comes after the five mapping calls, all of which
    returned.  In a run in which the target index does not exist and no
    creation or mapping call raises, it is made when the old index is not
    empty. *)
Theorem reindex_after_mappings es index old_index h r t :
  provision oracle es index old_index h = (r, t) ->
  (old_index = "" ->
   forallb (fun c => negb (is_reindex c)) (calls t) = true) /\
  (answer oracle h (IndicesExists es index) = Returns true ->
   forallb (fun c => negb (is_reindex c)) (calls t) = true) /\
  (forall pre e post,
      t = pre ++ e :: post ->
      is_reindex (call_of e) = true ->
      call_of e = Reindex es old_index index /\ old_index <> "" /\
      forallb completed pre = true /\
      calls pre =
        IndicesExists es index :: creation_calls es ++ Sleep 2
        :: mapping_calls es
        ++ [Stdout ("New index " ++ index ++ " created");
            Stdout ("Copying all data from old index '" ++ old_index
                    ++ "' to new index '" ++ index ++ "'")]) /\
  (answer oracle h (IndicesExists es index) = Returns false ->
   (forall e, In e t ->
              (is_create (call_of e) || is_put_mapping (call_of e))%bool = true ->
              completed e = true) ->
   old_index <> "" ->
   In (Reindex es old_index index) (calls t)).
Proof.
  intros Hrun. split; [|split; [|split]].
  - intros Hempty. apply forallb_forall. intros c Hc.
    unfold calls in Hc. apply in_map_iff in Hc. destruct Hc as (e & <- & He).
    destruct (is_reindex (call_of e)) eqn:Hre; [|reflexivity].
    apply in_split in He. destruct He as (pre & post & Ht).
    destruct (reindex_cut _ _ _ _ _ _ _ _ _ Hrun Ht Hre) as (_ & Hne & _).
    contradiction.
  - intros Hcheck. rewrite (provision_existing _ _ _ _ Hcheck) in Hrun.
    inversion Hrun. reflexivity.
  - intros pre e post Ht He.
    exact (reindex_cut _ _ _ _ _ _ _ _ _ Hrun Ht He).
  - intros Hcheck Hall Hold. apply truthy_str in Hold.
    destruct (provision_absent es index old_index h Hcheck) as (r' & t' & Hp & Hr).
    rewrite Hp in Hrun. inversion Hrun; subst r' t. clear Hrun Hp.
    unfold steps, migration_calls in Hr. rewrite Hold in Hr.
    change (run_calls oracle
              ((creation_calls es ++ [Sleep 2] ++ mapping_calls es
                ++ [Stdout ("New index " ++ index ++ " created");
                    Stdout ("Copying all data from old index '" ++ old_index
                            ++ "' to new index '" ++ index ++ "'")])
               ++ [Reindex es old_index index; Stdout "Done!"])
              (h ++ [Ev (IndicesExists es index) (Returns false)]) = (r, t'))
      in Hr.
    apply run_calls_app in Hr.
    destruct Hr as [(x & -> & HA) | (tA & tB & HA & HB & ->)].
    + exfalso. apply run_calls_err in HA.
      destruct HA as (pre & c & rest & Hcs & _ & Hraise & ->).
      assert (Hc : (is_create c || is_put_mapping c || infallible c)%bool = true).
      { apply (forallb_In
                 (fun c => (is_create c || is_put_mapping c || infallible c)%bool)
                 (calls pre ++ c :: rest)).
        - rewrite <- Hcs. reflexivity.
        - apply in_elt. }
      rewrite (raised_not_infallible _ _ _ Hraise), orb_false_r in Hc.
      specialize (Hall (Ev c (Raises x))). cbn in Hall.
      assert (false = true); [|discriminate].
      apply Hall; [|exact Hc]. right. apply in_elt.
    + cbn [run_calls] in HB. apply bind_inv in HB. rewrite perform_run in HB.
      unfold calls. cbn [map]. right. rewrite map_app. apply in_or_app. right.
      destruct HB as [(x & Hc & _) | (a & t1 & t2 & Hc & _ & ->)];
        inversion Hc; subst; left; reflexivity.
Qed.

Lemma calls_app t1 t2 : calls (t1 ++ t2) = calls t1 ++ calls t2.
Proof. apply map_app. Qed.

(** *** Before the cluster is touched: only files and prompts *)

Lemma quiet_ret {A : Type} (a : A) : quiet (ret a).
Proof. intros h r t H. inversion H. reflexivity. Qed.

Lemma quiet_lift {A : Type} (x : result A) : quiet (lift x).
Proof. intros h r t H. inversion H. reflexivity. Qed.

Lemma quiet_perform c : is_input c = true -> quiet (perform oracle c).
Proof.
  intros Hc h r t H. rewrite perform_run in H. inversion H. cbn.
  rewrite Hc. reflexivity.
Qed.

Lemma quiet_bind {A B : Type} (m : M A) (f : A -> M B) :
  quiet m -> (forall a, quiet (f a)) -> quiet (bind m f).
Proof.
  intros Hm Hf h r t H. apply bind_inv in H.
  destruct H as [(e & Hr & _) | (a & t1 & t2 & Hr & Hk & ->)].
  - exact (Hm _ _ _ Hr).
  - rewrite calls_app, forallb_app.
    rewrite (Hm _ _ _ Hr). exact (Hf _ _ _ _ Hk).
Qed.

Ltac quiet_step :=
  first
    [ apply quiet_ret
    | apply quiet_lift
    | match goal with
      | |- quiet (perform oracle ?c) => apply (quiet_perform c); reflexivity
      end
    | apply quiet_bind; [|intros ?]
    | match goal with
      | |- quiet (if ?b then _ else _) => destruct b
      | |- quiet (match ?x with _ => _ end) => destruct x
      end ].

Lemma quiet_resolve args : quiet (resolve oracle int_of_str args).
Proof.
  unfold resolve, choose_config_file, resolve_from_file, resolve_interactive,
    raw_input, getpass.
  repeat quiet_step.
Qed.

Lemma quiet_ask_index args : quiet (ask_index oracle args).
Proof. unfold ask_index, raw_input. repeat quiet_step. Qed.

Lemma quiet_ask_old_index args : quiet (ask_old_index oracle args).
Proof. unfold ask_old_index, raw_input. repeat quiet_step. Qed.

(** A run of [main]: either it ends with an exception before the cluster
    is touched, or it reaches [provision] with the client built from the
    resolved settings. *)
Lemma main_with_run args h r t :
  main_with oracle int_of_str args h = (r, t) ->
  (exists x, r = Err x /\ forallb is_input (calls t) = true) \/
  (exists cfg index old_index t0 t1,
      forallb is_input (calls t0) = true /\
      t = t0 ++ t1 /\
      provision oracle (connect args cfg) index old_index (h ++ t0) = (r, t1)).
Proof.
  unfold main_with. intros H.
  apply bind_inv in H.
  destruct H as [(x & Hr & ->) | (cfg & t1 & t2 & Hr & Hk & ->)].
  { left. exists x. split; [reflexivity|]. exact (quiet_resolve _ _ _ _ Hr). }
  apply bind_inv in Hk.
  destruct Hk as [(x & Hi & ->) | (index & t3 & t4 & Hi & Hk & ->)].
  { left. exists x. split; [reflexivity|].
    rewrite calls_app, forallb_app.
    rewrite (quiet_resolve _ _ _ _ Hr). exact (quiet_ask_index _ _ _ _ Hi). }
  apply bind_inv in Hk.
  destruct Hk as [(x & Ho & ->) | (old_index & t5 & t6 & Ho & Hk & ->)].
  { left. exists x. split; [reflexivity|].
    rewrite !calls_app, !forallb_app.
    rewrite (quiet_resolve _ _ _ _ Hr), (quiet_ask_index _ _ _ _ Hi).
    exact (quiet_ask_old_index _ _ _ _ Ho). }
  right. exists cfg, index, old_index, (t1 ++ t3 ++ t5), t6.
  split; [|split].
  - rewrite !calls_app, !forallb_app.
    rewrite (quiet_resolve _ _ _ _ Hr), (quiet_ask_index _ _ _ _ Hi).
    exact (quiet_ask_old_index _ _ _ _ Ho).
  - rewrite <- !app_assoc. reflexivity.
  - rewrite !app_assoc. rewrite <- !app_assoc in Hk. rewrite <- !app_assoc.
    exact Hk.
Qed.

Lemma input_not_mutating l :
  forallb is_input l = true -> forallb (fun c => negb (mutating c)) l = true.
Proof.
  intros H. apply forallb_forall. intros c Hc.
  apply (forallb_In _ _ _ H) in Hc. destruct c; try discriminate; reflexivity.
Qed.

Lemma steps_no_exists es index old_index :
  forallb (fun c => negb (is_exists c)) (steps es index old_index) = true.
Proof.
  unfold steps, migration_calls. destruct (truthy _); reflexivity.
Qed.

(** C2.  In every run of [main] in which the existence check of the target
    index answers that it exists, no creation, mapping or copy call is
    made (whatever old index was given), the last thing the run does after
    the check is to print "Index <name> already exists. Skipping index
    creation.", and [main] returns normally. *)
Theorem existing_target_is_skipped env argv h r t es index :
  main oracle int_of_str env argv h = (r, t) ->
  In (Ev (IndicesExists es index) (Returns true)) t ->
  r = Ok tt /\
  forallb (fun c => negb (mutating c)) (calls t) = true /\
  exists pre,
    t = pre ++ [Ev (IndicesExists es index) (Returns true);
                Ev (Stdout ("Index " ++ index
                            ++ " already exists. Skipping index creation."))
                   (Returns tt)].
Proof.
  unfold main. intros Hrun Hin. apply main_with_run in Hrun.
  destruct Hrun as [(x & _ & Hq) | (cfg & i & o & t0 & t1 & Hq & -> & Hp)].
  { exfalso. apply (in_map call_of) in Hin.
    apply (forallb_In _ _ _ Hq) in Hin. discriminate. }
  apply in_app_or in Hin. destruct Hin as [Hin|Hin].
  { exfalso. apply (in_map call_of) in Hin.
    apply (forallb_In _ _ _ Hq) in Hin. discriminate. }
  apply provision_run in Hp.
  destruct Hp as [(_ & -> & ->) | [(x & _ & _ & ->) | (t' & _ & -> & Hr)]].
  - destruct Hin as [Hin|[Hin|[]]].
    + apply (f_equal call_of) in Hin. cbn in Hin. inversion Hin; subst.
      split; [reflexivity|]. split.
      * rewrite calls_app, forallb_app.
        rewrite (input_not_mutating _ Hq). reflexivity.
      * exists t0. reflexivity.
    + apply (f_equal call_of) in Hin. discriminate.
  - exfalso. destruct Hin as [Hin|[]].
    apply (f_equal found_existing) in Hin. discriminate.
  - exfalso. destruct Hin as [Hin|Hin].
    + apply (f_equal found_existing) in Hin. discriminate.
    + apply (run_calls_In _ _ _ _ _ Hr) in Hin.
      apply (forallb_In _ _ _ (steps_no_exists _ _ _)) in Hin. discriminate.
Qed.

(** *** Which settings source is used *)

(** C8.  When [config.yaml] is found, it is the file that is chosen and
    loaded, whatever [--config] says; when it is not found and the path
    given by [--config] is, that path is chosen, and loaded; when neither
    is found, no file is chosen and the settings are resolved from the
    command line and the prompts. *)
Theorem config_file_selection args h :
  let found := Ev (IsFile "config.yaml") (Returns true) in
  let missing := Ev (IsFile "config.yaml") (Returns false) in
  let found' := Ev (IsFile (Args.config args)) (Returns true) in
  let missing' := Ev (IsFile (Args.config args)) (Returns false) in
  (answer oracle h (IsFile "config.yaml") = Returns true ->
   choose_config_file oracle args h = (Ok "config.yaml", [found]) /\
   resolve oracle int_of_str args h =
     after [found] (resolve_from_file oracle args "config.yaml") h) /\
  (answer oracle h (IsFile "config.yaml") = Returns false ->
   answer oracle (h ++ [missing]) (IsFile (Args.config args)) = Returns true ->
   choose_config_file oracle args h = (Ok (Args.config args), [missing; found']) /\
   (Args.config args <> "" ->
    resolve oracle int_of_str args h =
      after [missing; found']
            (resolve_from_file oracle args (Args.config args)) h)) /\
  (answer oracle h (IsFile "config.yaml") = Returns false ->
   answer oracle (h ++ [missing]) (IsFile (Args.config args)) = Returns false ->
   choose_config_file oracle args h = (Ok "", [missing; missing']) /\
   resolve oracle int_of_str args h =
     after [missing; missing'] (resolve_interactive oracle int_of_str args) h).
Proof.
  cbv zeta. split; [|split].
  - intros H1.
    assert (Hc : choose_config_file oracle args h
                 = (Ok "config.yaml", [Ev (IsFile "config.yaml") (Returns true)])).
    { unfold choose_config_file, bind. rewrite perform_run, H1. reflexivity. }
    split; [exact Hc|].
    unfold resolve, after.  unfold bind at 1. rewrite Hc. reflexivity.
  - intros H1 H2.
    assert (Hc : choose_config_file oracle args h
                 = (Ok (Args.config args),
                    [Ev (IsFile "config.yaml") (Returns false);
                     Ev (IsFile (Args.config args)) (Returns true)])).
    { unfold choose_config_file, bind. rewrite perform_run, H1.
      rewrite perform_run, H2. reflexivity. }
    split; [exact Hc|]. intros Hne.
    unfold resolve, after. unfold bind at 1. rewrite Hc.
    rewrite (nonempty_truthy _ Hne). reflexivity.
  - intros H1 H2.
    assert (Hc : choose_config_file oracle args h
                 = (Ok "",
                    [Ev (IsFile "config.yaml") (Returns false);
                     Ev (IsFile (Args.config args)) (Returns false)])).
    { unfold choose_config_file, bind. rewrite perform_run, H1.
      rewrite perform_run, H2. reflexivity. }
    split; [exact Hc|].
    unfold resolve, after. unfold bind at 1. rewrite Hc. reflexivity.
Qed.

(** *** The target index *)

(** C9 (as amended).  When [--index] is not given and the operator's
    answer to the prompt is the empty string, the target index is
    [elastalert_status]; any other answer is the target index as typed;
    and the target index is never the empty string. *)
Theorem empty_index_answer_defaults args h :
  let prompt := RawInput "New index name? (Default elastalert_status) " in
  Args.index args = None ->
  (answer oracle h prompt = Returns "" ->
   ask_index oracle args h = (Ok "elastalert_status", [Ev prompt (Returns "")])) /\
  (forall s, s <> "" -> answer oracle h prompt = Returns s ->
             ask_index oracle args h = (Ok s, [Ev prompt (Returns s)])) /\
  (forall i t, ask_index oracle args h = (Ok i, t) -> i <> "").
Proof.
  cbv zeta. intros Hnone. unfold ask_index, raw_input. rewrite Hnone.
  split; [|split].
  - intros H. unfold bind. rewrite perform_run, H. reflexivity.
  - intros s Hs H. unfold bind. rewrite perform_run, H.
    rewrite (nonempty_truthy _ Hs). reflexivity.
  - intros i t H. apply bind_inv in H.
    destruct H as [(x & _ & Hx) | (a & t1 & t2 & _ & Hk & _)]; [discriminate|].
    destruct (truthy (PyStr a)) eqn:Ha; inversion Hk; subst.
    + apply truthy_str. exact Ha.
    + discriminate.
Qed.

End Theory.

(** * Sample runs *)

(** ** Precedence *)

(** C1 fails as stated: with [ES_HOST] and [ES_USE_SSL] set in the
    environment, [--aws-region] on the command line, and a file that holds a
    host and [use_ssl] but no region, the resolved host and [use_ssl] are
    the environment's (not the file's), and the resolved region is [None]
    (not the one supplied). *)
Lemma precedence_counterexample :
  let argv := [OptAwsRegion "eu-west-1"] in
  exists cfg,
    file_config (parse_args env_with_host argv) (PyDict config_yaml) = Ok cfg /\
    (Cfg.host cfg = PyStr "es.env.example" /\
     Cfg.host (claimed_config argv config_yaml) = PyStr "es.file.example") /\
    (Cfg.use_ssl cfg = PyBool false /\
     Cfg.use_ssl (claimed_config argv config_yaml) = PyBool true) /\
    (Cfg.aws_region cfg = PyNone /\
     Cfg.aws_region (claimed_config argv config_yaml) = PyStr "eu-west-1") /\
    cfg <> claimed_config argv config_yaml.
Proof.
  cbv zeta. eexists. split; [reflexivity|].
  repeat split. intros H. apply (f_equal Cfg.host) in H. discriminate.
Qed.

Lemma file_mode_precedence_witness :
  exists cfg,
    file_config (parse_args env_with_host [OptPassword ""]) (PyDict config_yaml)
      = Ok cfg /\
    Cfg.host cfg = PyStr "es.env.example" /\
    Cfg.password cfg = PyStr "secret" /\
    Cfg.aws_region cfg = PyNone.
Proof.
  destruct (file_mode_precedence env_with_host [OptPassword ""] config_yaml)
    as (cfg & Hcfg & Hhost & _ & _ & Hpw & _ & _ & _ & _ & _ & _ & Hregion & _).
  exists cfg. split; [exact Hcfg|]. split; [exact Hhost|]. split; [exact Hpw|].
  apply Hregion. reflexivity.
Defined.



(** C6 fails as stated: the file sets [use_ssl] to true and has no
    [verify_certs], no [--verify-certs] or [--no-verify-certs] is given, but
    [--no-ssl] is: the resolved [use_ssl] is false. *)
Lemma no_ssl_flag_counterexample :
  let argv := [OptNoSsl] in
  assoc "use_ssl" config_yaml = Some (PyBool true) /\
  assoc "verify_certs" config_yaml = None /\
  ~ In OptVerifyCerts argv /\ ~ In OptNoVerifyCerts argv /\
  exists cfg,
    file_config (parse_args no_environ argv) (PyDict config_yaml) = Ok cfg /\
    Cfg.use_ssl cfg = PyBool false /\
    Cfg.use_ssl cfg <> PyBool true.
Proof.
  cbv zeta. repeat split; try (intros [H|[]]; discriminate).
  eexists. split; [reflexivity|]. split; [reflexivity|discriminate].
Qed.

Lemma verify_certs_absent_is_true_witness :
  exists cfg,
    file_config (parse_args no_environ [OptHost "es.cli.example"])
                (PyDict config_yaml) = Ok cfg /\
    Cfg.use_ssl cfg = PyBool true /\ Cfg.verify_certs cfg = PyBool true.
Proof.
  destruct (verify_certs_absent_is_true no_environ [OptHost "es.cli.example"]
              config_yaml) as (cfg & Hcfg & _ & _ & H).
  - intros [H|[]]; discriminate.
  - intros [H|[]]; discriminate.
  - exists cfg. split; [exact Hcfg|].
    apply H; try reflexivity; intros [H'|[]]; discriminate.
Defined.

Lemma region_selects_signed_requests_witness :
  Client.http_auth (connect (parse_args no_environ [OptProfile "ops"]) aws_cfg)
  = AwsSignedRequest (PyStr "eu-west-1") (PyStr "ops").
Proof.
  apply (region_selects_signed_requests
           (parse_args no_environ [OptProfile "ops"]) aws_cfg).
  discriminate.
Defined.

(** ** Settings source and target index *)

Lemma config_file_selection_witness :
  choose_config_file (simulate (site []))
    (parse_args no_environ [OptConfig "/etc/elastalert.yaml"]) []
  = (Ok "config.yaml", [Ev (IsFile "config.yaml") (Returns true)]) /\
  choose_config_file (simulate site_with_custom_config)
    (parse_args no_environ [OptConfig "/etc/elastalert.yaml"]) []
  = (Ok "/etc/elastalert.yaml",
     [Ev (IsFile "config.yaml") (Returns false);
      Ev (IsFile "/etc/elastalert.yaml") (Returns true)]) /\
  choose_config_file (simulate blank_operator) (parse_args no_environ []) []
  = (Ok "", [Ev (IsFile "config.yaml") (Returns false);
             Ev (IsFile "config.yaml") (Returns false)]).
Proof.
  split; [|split].
  - apply (config_file_selection (simulate (site [])) sample_int
             (parse_args no_environ [OptConfig "/etc/elastalert.yaml"]) []).
    reflexivity.
  - apply (config_file_selection (simulate site_with_custom_config) sample_int
             (parse_args no_environ [OptConfig "/etc/elastalert.yaml"]) []);
      reflexivity.
  - apply (config_file_selection (simulate blank_operator) sample_int
             (parse_args no_environ []) []); reflexivity.
Defined.

(** C9 fails as stated: an answer made of one space is blank, and it is the
    resolved target index. *)
Lemma blank_index_answer_counterexample :
  let prompt := RawInput "New index name? (Default elastalert_status) " in
  answer (simulate blank_operator) [] prompt = Returns " " /\
  is_blank " " = true /\
  ask_index (simulate blank_operator) (parse_args no_environ []) []
  = (Ok " ", [Ev prompt (Returns " ")]) /\
  " " <> "elastalert_status".
Proof. cbv zeta. repeat split. discriminate. Qed.

Lemma empty_index_answer_defaults_witness :
  ask_index (simulate (site [])) (parse_args no_environ []) []
  = (Ok "elastalert_status",
     [Ev (RawInput "New index name? (Default elastalert_status) ") (Returns "")]).
Proof.
  apply (empty_index_answer_defaults (simulate (site []))
           (parse_args no_environ []) []); reflexivity.
Defined.

(** ** Provisioning *)

Lemma existing_target_is_skipped_witness :
  let run := main (simulate (site ["foo"; "bar"])) sample_int no_environ
                  [OptIndex "foo"; OptOldIndex "bar"] [] in
  fst run = Ok tt /\
  calls (snd run) =
    [IsFile "config.yaml"; YamlLoad "config.yaml";
     IndicesExists site_client "foo";
     Stdout "Index foo already exists. Skipping index creation."].
Proof.
  cbv zeta.
  destruct (existing_target_is_skipped
              (simulate (site ["foo"; "bar"])) sample_int no_environ
              [OptIndex "foo"; OptOldIndex "bar"] [] _ _ site_client "foo"
              (surjective_pairing _)) as (Hr & _ & pre & Ht).
  - vm_compute. auto.
  - split; [exact Hr|]. vm_compute. reflexivity.
Defined.

(** C3 fails as stated: at a site where [elastalert_silence] is left over
    from an earlier run, the third creation call raises; the two remaining
    creation calls and the five mapping calls are never issued. *)
Lemma creation_failure_counterexample :
  let w := simulate (site ["elastalert_silence"]) in
  let run := provision w site_client "foo" "" [] in
  answer w [] (IndicesExists site_client "foo") = Returns false /\
  fst run = Err "RequestError" /\
  calls (snd run) =
    [IndicesExists site_client "foo";
     IndicesCreate site_client "elastalert";
     IndicesCreate site_client "elastalert_status";
     IndicesCreate site_client "elastalert_silence"] /\
  map completed (snd run) = [true; true; true; false] /\
  ~ In (IndicesCreate site_client "elastalert_error") (calls (snd run)) /\
  ~ In (IndicesCreate site_client "elastalert_past") (calls (snd run)) /\
  existsb is_put_mapping (calls (snd run)) = false.
Proof.
  cbv zeta. repeat split; vm_compute; intros H;
    repeat (destruct H as [H|H]; [discriminate|]); exact H.
Qed.

Lemma failed_creation_ends_run_witness :
  let w := simulate (site ["elastalert_silence"]) in
  let pre := [Ev (IndicesExists site_client "foo") (Returns false);
              Ev (IndicesCreate site_client "elastalert") (Returns tt);
              Ev (IndicesCreate site_client "elastalert_status") (Returns tt)] in
  let e := Ev (IndicesCreate site_client "elastalert_silence")
              (Raises "RequestError") in
  provision w site_client "foo" "" [] = (Err "RequestError", pre ++ [e]) /\
  forallb completed pre = true /\
  (exists done rest,
      creation_calls site_client = done ++ call_of e :: rest /\
      calls pre = IndicesExists site_client "foo" :: done) /\
  (completed e = false ->
   @nil event = [] /\ exists x, @Err unit "RequestError" = Err x).
Proof.
  cbv zeta.
  assert (Hrun : provision (simulate (site ["elastalert_silence"])) site_client
                   "foo" "" []
                 = (Err "RequestError",
                    [Ev (IndicesExists site_client "foo") (Returns false);
                     Ev (IndicesCreate site_client "elastalert") (Returns tt);
                     Ev (IndicesCreate site_client "elastalert_status") (Returns tt)]
                    ++ [Ev (IndicesCreate site_client "elastalert_silence")
                           (Raises "RequestError")])).
  { vm_compute. reflexivity. }
  split; [exact Hrun|].
  apply (failed_creation_ends_run _ _ _ _ _ _ _ _ _ _ Hrun eq_refl eq_refl).
Defined.

(** C4 fails as stated: at a site where both [foo] and [bar] exist, a run
    for target [foo] with the non-empty old index [bar] makes no copy. *)
Lemma copy_skipped_counterexample :
  let w := simulate (site ["foo"; "bar"]) in
  let run := provision w site_client "foo" "bar" [] in
  truthy (PyStr "bar") = true /\
  fst run = Ok tt /\
  calls (snd run) =
    [IndicesExists site_client "foo";
     Stdout "Index foo already exists. Skipping index creation."] /\
  ~ In (Reindex site_client "bar" "foo") (calls (snd run)).
Proof.
  cbv zeta. repeat split. vm_compute. intros H.
  repeat (destruct H as [H|H]; [discriminate|]). exact H.
Qed.

(** The events of a computed trace, one after the other. *)
Ltac each_event H :=
  repeat (destruct H as [H|H]; [subst; first [reflexivity|discriminate]|]);
  destruct H.

Lemma reindex_after_mappings_witness :
  let w := simulate (site ["bar"]) in
  let run := provision w site_client "foo" "bar" [] in
  fst run = Ok tt /\ In (Reindex site_client "bar" "foo") (calls (snd run)).
Proof.
  cbv zeta. split; [vm_compute; reflexivity|].
  apply (reindex_after_mappings (simulate (site ["bar"])) site_client "foo" "bar"
           [] _ _ (surjective_pairing _)).
  - reflexivity.
  - intros e He Hkind. vm_compute in He. each_event He.
  - discriminate.
Defined.

(** C7 fails as stated: at a site where [elastalert] and
    [elastalert_status] are left over from an earlier run, the target
    [elastalert_past] does not exist, the first creation call raises, and
    [elastalert_silence], [elastalert_error] and [elastalert_past] are not
    created. *)
Lemma partial_rerun_counterexample :
  let s := site ["elastalert"; "elastalert_status"] in
  let run := provision (simulate s) site_client "elastalert_past" "" [] in
  answer (simulate s) [] (IndicesExists site_client "elastalert_past")
    = Returns false /\
  fst run = Err "RequestError" /\
  calls (snd run) =
    [IndicesExists site_client "elastalert_past";
     IndicesCreate site_client "elastalert"] /\
  present s (snd run) = ["elastalert"; "elastalert_status"].
Proof. cbv zeta. repeat split. Qed.

Lemma creation_precedes_mappings_witness :
  let w := simulate (site []) in
  let run := provision w site_client "foo" "" [] in
  fst run = Ok tt /\
  exists rest,
    calls (snd run) =
      IndicesExists site_client "foo" :: creation_calls site_client
      ++ Sleep 2 :: rest.
Proof.
  cbv zeta. split; [vm_compute; reflexivity|].
  apply (creation_precedes_mappings (simulate (site [])) site_client "foo" ""
           [] _ _ (surjective_pairing _) eq_refl).
  intros e He Hkind. vm_compute in He. each_event He.
Defined.


(** The scenario of section 8: [--index foo --old-index bar] where [foo] does
    not exist and [bar] does. *)
Example fresh_target_run :
  let run := main (simulate (site ["bar"])) sample_int no_environ
                  [OptIndex "foo"; OptOldIndex "bar"] [] in
  fst run = Ok tt /\
  calls (snd run) =
    [IsFile "config.yaml"; YamlLoad "config.yaml";
     IndicesExists site_client "foo"]
    ++ creation_calls site_client ++ [Sleep 2] ++ mapping_calls site_client
    ++ [Stdout "New index foo created";
        Stdout "Copying all data from old index 'bar' to new index 'foo'";
        Reindex site_client "bar" "foo";
        Stdout "Done!"] /\
  forallb completed (snd run) = true.
Proof. cbv zeta. repeat split. Qed.


(** * Further properties *)

(** ** Repeated and paired options *)

Lemma supplied_last {A : Type} (dest : cli_opt -> option A) before o after v :
  dest o = Some v ->
  (forall o', In o' after -> dest o' = None) ->
  supplied dest (before ++ o :: after) = Some v.
Proof.
  intros Ho Hafter. rewrite supplied_app. cbn.
  rewrite (supplied_absent dest after Hafter), Ho. reflexivity.
Qed.

(** X1.  [--profile] and [--boto-profile] write the same destination, as
    [--ssl] and [--no-ssl] do: of several occurrences on the command line,
    whichever flag they use, the last one decides, and it overrides
    [ES_USE_SSL]. *)
Theorem last_flag_wins env before o after :
  (forall s, Dest.profile o = Some s ->
             (forall o', In o' after -> Dest.profile o' = None) ->
             Args.profile (parse_args env (before ++ o :: after)) = Some s) /\
  (forall b, Dest.ssl o = Some b ->
             (forall o', In o' after -> Dest.ssl o' = None) ->
             Args.ssl (parse_args env (before ++ o :: after)) = Some b).
Proof.
  split; intros v Ho Hafter; unfold parse_args; cbn [Args.profile Args.ssl];
    rewrite stored_supplied, (supplied_last _ _ _ _ _ Ho Hafter); reflexivity.
Qed.

(** X2.  [--timeout] has no [type]: the client gets the integer 60 when the
    option is not given, and the option's text as a string, not a number,
    when it is. *)
Theorem timeout_flag_is_a_string env argv cfg :
  ((forall s, ~ In (OptTimeout s) argv) ->
   Client.timeout (connect (parse_args env argv) cfg) = PyInt 60) /\
  (forall before s after,
      argv = before ++ OptTimeout s :: after ->
      (forall s', ~ In (OptTimeout s') after) ->
      Client.timeout (connect (parse_args env argv) cfg) = PyStr s).
Proof.
  unfold connect, parse_args, stored_or. cbn [Client.timeout Args.timeout].
  rewrite stored_supplied, first_set_None_r. split.
  - intros Hno. replace (supplied Dest.timeout argv) with (@None pyval);
      [reflexivity|]. symmetry. not_on_command_line Hno.
  - intros before s after -> Hno.
    rewrite (supplied_last Dest.timeout before (OptTimeout s) after (PyStr s));
      [reflexivity|reflexivity|].
    intros o Ho. destruct o; try reflexivity. exfalso. eapply Hno; eauto.
Qed.

Section More.

Variable oracle : world.
Variable int_of_str : string -> option Z.

(** ** Computations whose calls are of one kind *)

Lemma only_ret P {A : Type} (a : A) : only_calls P (ret a).
Proof. intros h r t H. inversion H. reflexivity. Qed.

Lemma only_lift P {A : Type} (x : result A) : only_calls P (lift x).
Proof. intros h r t H. inversion H. reflexivity. Qed.

Lemma only_perform (P : call -> bool) c :
  P c = true -> only_calls P (perform oracle c).
Proof.
  intros Hc h r t H. rewrite perform_run in H. inversion H. cbn.
  rewrite Hc. reflexivity.
Qed.

Lemma only_bind P {A B : Type} (m : M A) (f : A -> M B) :
  only_calls P m -> (forall a, only_calls P (f a)) -> only_calls P (bind m f).
Proof.
  intros Hm Hf h r t H. apply bind_inv in H.
  destruct H as [(e & Hr & _) | (a & t1 & t2 & Hr & Hk & ->)].
  - exact (Hm _ _ _ Hr).
  - rewrite calls_app, forallb_app.
    rewrite (Hm _ _ _ Hr). exact (Hf _ _ _ _ Hk).
Qed.

Ltac only_step :=
  first
    [ apply only_ret
    | apply only_lift
    | match goal with
      | |- only_calls ?P (perform oracle ?c) =>
          apply (only_perform P c); reflexivity
      end
    | apply only_bind; [|intros ?]
    | match goal with
      | |- only_calls _ (if ?b then _ else _) => destruct b
      | |- only_calls _ (match ?x with _ => _ end) => destruct x
      end ].

Lemma only_choose_config_file args :
  only_calls (fun c => negb (is_prompt c)) (choose_config_file oracle args).
Proof. unfold choose_config_file. repeat only_step. Qed.

Lemma only_resolve_from_file args f :
  only_calls (fun c => negb (is_prompt c)) (resolve_from_file oracle args f).
Proof. unfold resolve_from_file. repeat only_step. Qed.

Lemma only_provision es index old_index :
  only_calls (fun c => negb (is_prompt c)) (provision oracle es index old_index).
Proof. unfold provision, print, sleep. repeat only_step. Qed.

(** ** When a config file was found *)

(** The settings then come from [resolve_from_file] alone. *)
Lemma resolve_file_mode args h f t0 :
  choose_config_file oracle args h = (Ok f, t0) ->
  f <> "" ->
  resolve oracle int_of_str args h
  = after t0 (resolve_from_file oracle args f) h.
Proof.
  intros Hc Hf. unfold resolve, after. unfold bind at 1. rewrite Hc.
  rewrite (nonempty_truthy _ Hf). reflexivity.
Qed.

(** X3.  When a config file was found and the document [yaml.load] returns is
    not a mapping (an empty file, a list, a scalar), [main] ends with
    [AttributeError] right after loading it: nothing is asked and the
    cluster is not contacted. *)
Theorem non_mapping_config_is_fatal env argv h f t0 data :
  choose_config_file oracle (parse_args env argv) h = (Ok f, t0) ->
  f <> "" ->
  answer oracle (h ++ t0) (YamlLoad f) = Returns data ->
  is_dict data = false ->
  main oracle int_of_str env argv h
  = (Err "AttributeError", t0 ++ [Ev (YamlLoad f) (Returns data)]).
Proof.
  intros Hc Hf Hload Hdata. unfold main, main_with. unfold bind at 1.
  rewrite (resolve_file_mode _ _ _ _ Hc Hf). unfold after, resolve_from_file.
  unfold bind. rewrite perform_run, Hload. unfold lift.
  destruct data; try discriminate; cbn; rewrite ?app_nil_r; reflexivity.
Qed.

(** X4.  When a config file was found and holds a mapping, the settings are
    resolved without a question to the operator; a host or port that neither
    the arguments nor the file give is [None], not asked for. *)
Theorem file_mode_asks_nothing args h f t0 d :
  choose_config_file oracle args h = (Ok f, t0) ->
  f <> "" ->
  answer oracle (h ++ t0) (YamlLoad f) = Returns (PyDict d) ->
  exists cfg,
    resolve oracle int_of_str args h
    = (Ok cfg, t0 ++ [Ev (YamlLoad f) (Returns (PyDict d))]) /\
    (truthy (py_str (Args.host args)) = false -> assoc "es_host" d = None ->
     Cfg.host cfg = PyNone) /\
    (truthy (py_int (Args.port args)) = false -> assoc "es_port" d = None ->
     Cfg.port cfg = PyNone).
Proof.
  intros Hc Hf Hload. rewrite (resolve_file_mode _ _ _ _ Hc Hf).
  unfold after, resolve_from_file, bind. rewrite perform_run, Hload.
  unfold lift. cbn [file_config dict_get rbind].
  eexists. split; [rewrite app_nil_r; reflexivity|].
  cbn [Cfg.host Cfg.port]. unfold if_truthy.
  split; intros Harg Hkey; rewrite Harg, Hkey; reflexivity.
Qed.

(** X5.  With a config file found and both [--index] and [--old-index] on
    the command line, a run of [main] asks the operator nothing. *)
Theorem scripted_run_asks_nothing env argv h f t0 r t :
  choose_config_file oracle (parse_args env argv) h = (Ok f, t0) ->
  f <> "" ->
  Args.index (parse_args env argv) <> None ->
  Args.old_index (parse_args env argv) <> None ->
  main oracle int_of_str env argv h = (r, t) ->
  forallb (fun c => negb (is_prompt c)) (calls t) = true.
Proof.
  intros Hc Hf Hi Ho. unfold main, main_with.
  set (args := parse_args env argv) in *. intros Hrun.
  apply bind_inv in Hrun. rewrite (resolve_file_mode _ _ _ _ Hc Hf) in Hrun.
  unfold after in Hrun.
  destruct (resolve_from_file oracle args f (h ++ t0)) as [rf tf] eqn:Hrf.
  pose proof (only_choose_config_file _ _ _ _ Hc) as H0.
  pose proof (only_resolve_from_file _ _ _ _ _ Hrf) as H1.
  destruct Hrun as [(x & Hr & _) | (cfg & t1 & t2 & Hr & Hk & ->)];
    inversion Hr; subst.
  { rewrite calls_app, forallb_app, H0, H1. reflexivity. }
  rewrite !calls_app, !forallb_app, H0, H1. cbn [andb].
  unfold ask_index, ask_old_index in Hk.
  destruct (Args.index args) as [i|]; [|contradiction].
  destruct (Args.old_index args) as [o|]; [|contradiction].
  apply bind_inv in Hk.
  destruct Hk as [(x & Hr2 & _) | (i' & t3 & t4 & Hr2 & Hk & ->)].
  { apply bind_inv in Hr2.
    destruct Hr2 as [(y & Hy & _) | (a & ta & tb & Hy & Hz & ->)];
      [discriminate|]. inversion Hy; subst.
    destruct (negb _); discriminate. }
  apply bind_inv in Hr2.
  destruct Hr2 as [(y & Hy & _) | (a & ta & tb & Hy & Hz & ->)];
    [discriminate|]. inversion Hy; subst.
  assert (tb = []) by (destruct (negb _); inversion Hz; reflexivity). subst tb.
  apply bind_inv in Hk.
  destruct Hk as [(x & Hr3 & _) | (o' & t5 & t6 & Hr3 & Hk & ->)];
    [discriminate|]. inversion Hr3; subst.
  cbn [app calls map forallb]. exact (only_provision _ _ _ _ _ _ Hk).
Qed.

Lemma supplied_skip {A : Type} (dest : cli_opt -> option A) before o after :
  dest o = None ->
  supplied dest (before ++ o :: after) = supplied dest (before ++ after).
Proof.
  intros Ho. rewrite !supplied_app. cbn. rewrite Ho.
  destruct (supplied dest after); reflexivity.
Qed.

Lemma region_flags_same env before o after :
  (exists r, o = OptAwsRegion r) \/ (exists s, o = OptSendGetBodyAs s) ->
  same_but_region (parse_args env (before ++ o :: after))
                  (parse_args env (before ++ after)).
Proof.
  intros Ho. unfold same_but_region, parse_args, stored_or.
  cbn [Args.host Args.port Args.username Args.password Args.url_prefix
       Args.no_auth Args.ssl Args.verify_certs Args.index Args.old_index
       Args.profile Args.timeout Args.config].
  rewrite !stored_supplied.
  destruct Ho as [(r & ->) | (s & ->)];
    rewrite !supplied_skip by reflexivity; repeat split.
Qed.

(** With a config file found, the run reads neither [args.aws_region] nor
    [args.send_get_body_as]. *)
Lemma main_with_same_but_region a b h f t0 :
  same_but_region a b ->
  choose_config_file oracle a h = (Ok f, t0) ->
  f <> "" ->
  main_with oracle int_of_str a h = main_with oracle int_of_str b h.
Proof.
  intros Hab Hc Hf. destruct a, b. unfold same_but_region in Hab. cbn in Hab.
  destruct Hab as (? & ? & ? & ? & ? & ? & ? & ? & ? & ? & ? & ? & ?). subst.
  match goal with
  | |- _ = main_with _ _ ?b _ =>
      assert (Hc' : choose_config_file oracle b h = (Ok f, t0)) by exact Hc
  end.
  unfold main_with. unfold bind at 1.
  rewrite (resolve_file_mode _ _ _ _ Hc Hf).
  symmetry. unfold bind at 1.
  rewrite (resolve_file_mode _ _ _ _ Hc' Hf). reflexivity.
Qed.

(** X6.  With a config file found, [--aws-region] and [--send_get_body_as]
    have no effect: the run of [main] is the one the command line without
    them gives. *)
Theorem region_flag_ignored_with_file env before o after h f t0 :
  (exists r, o = OptAwsRegion r) \/ (exists s, o = OptSendGetBodyAs s) ->
  choose_config_file oracle (parse_args env (before ++ after)) h = (Ok f, t0) ->
  f <> "" ->
  main oracle int_of_str env (before ++ o :: after) h
  = main oracle int_of_str env (before ++ after) h.
Proof.
  intros Ho Hc Hf. unfold main. symmetry.
  apply (main_with_same_but_region _ _ h f t0); [|exact Hc|exact Hf].
  pose proof (region_flags_same env before o after Ho) as H.
  unfold same_but_region in *.
  destruct H as (? & ? & ? & ? & ? & ? & ? & ? & ? & ? & ? & ? & ?).
  repeat split; symmetry; assumption.
Qed.

(** ** When no config file was found *)

Lemma prompt_then_ret {A : Type} c (g : resp c -> A) h a t :
  (x <- perform oracle c ;; ret (g x)) h = (Ok a, t) ->
  exists s, t = [Ev c (Returns s)] /\ a = g s.
Proof.
  unfold bind. rewrite perform_run.
  destruct (answer oracle h c) as [s|x]; intros H; inversion H; subst.
  exists s. auto.
Qed.

(** The runs of the no-file branch that return: the questions asked, stage
    by stage, and the settings they give. *)
Lemma resolve_interactive_ok args h cfg t :
  resolve_interactive oracle int_of_str args h = (Ok cfg, t) ->
  exists th tp ts tv tc tu (b v : bool),
    t = th ++ tp ++ ts ++ tv ++ tc ++ tu /\
    Cfg.use_ssl cfg = PyBool b /\ Cfg.verify_certs cfg = PyBool v /\
    (if truthy (py_str (Args.host args))
     then th = [] /\ Cfg.host cfg = py_str (Args.host args)
     else exists s, th = [Ev host_prompt (Returns s)] /\ Cfg.host cfg = PyStr s) /\
    (if truthy (py_int (Args.port args))
     then tp = [] /\ Cfg.port cfg = py_int (Args.port args)
     else exists s n, tp = [Ev port_prompt (Returns s)] /\
                      int_of_str s = Some n /\ Cfg.port cfg = PyInt n) /\
    match Args.ssl args with
    | Some x => ts = [] /\ b = x
    | None => exists s, ts = [Ev ssl_prompt (Returns s)] /\
                        b = str_in (lower s) ["t"; "true"]
    end /\
    (if b
     then match Args.verify_certs args with
          | Some x => tv = [] /\ v = x
          | None => exists s, tv = [Ev verify_prompt (Returns s)] /\
                              v = negb (str_in (lower s) ["f"; "false"])
          end
     else tv = [] /\ v = true) /\
    (if asks_credentials args
     then exists u p,
         tc = [Ev username_prompt (Returns u); Ev password_prompt (Returns p)] /\
         Cfg.username cfg = PyStr u /\ Cfg.password cfg = PyStr p
     else tc = [] /\ Cfg.username cfg = given_username args /\
          Cfg.password cfg = if_truthy (py_str (Args.password args)) PyNone) /\
    match Args.url_prefix args with
    | Some x => tu = [] /\ Cfg.url_prefix cfg = PyStr x
    | None => exists s, tu = [Ev url_prefix_prompt (Returns s)] /\
                        Cfg.url_prefix cfg = PyStr s
    end.
Proof.
  unfold resolve_interactive, raw_input, getpass. intros H.
  apply bind_inv in H.
  destruct H as [(x & _ & Hx) | (host & th & t1 & Hh & H & ->)]; [discriminate|].
  apply bind_inv in H.
  destruct H as [(x & _ & Hx) | (port & tp & t2 & Hp & H & ->)]; [discriminate|].
  apply bind_inv in H.
  destruct H as [(x & _ & Hx) | (b & ts & t3 & Hs & H & ->)]; [discriminate|].
  apply bind_inv in H.
  destruct H as [(x & _ & Hx) | (v & tv & t4 & Hv & H & ->)]; [discriminate|].
  apply bind_inv in H.
  destruct H as [(x & _ & Hx) | (cr & tc & t5 & Hc & H & ->)]; [discriminate|].
  apply bind_inv in H.
  destruct H as [(x & _ & Hx) | (url & tu & t6 & Hu & H & ->)]; [discriminate|].
  inversion H; subst cfg t6. clear H.
  exists th, tp, ts, tv, tc, tu, b, v.
  cbn [Cfg.host Cfg.port Cfg.username Cfg.password Cfg.url_prefix Cfg.use_ssl
       Cfg.verify_certs].
  split; [rewrite app_nil_r; reflexivity|].
  split; [reflexivity|]. split; [reflexivity|].
  split; [|split; [|split; [|split; [|split]]]].
  - destruct (truthy (py_str (Args.host args))).
    + inversion Hh. auto.
    + apply (prompt_then_ret host_prompt PyStr) in Hh.
      destruct Hh as (s & -> & ->). eauto.
  - destruct (truthy (py_int (Args.port args))).
    + inversion Hp. auto.
    + apply bind_inv in Hp.
      destruct Hp as [(x & _ & Hx) | (s & ta & tb & Ha & Hb & ->)];
        [discriminate|].
      rewrite perform_run in Ha.
      destruct (answer oracle _ _) as [s'|x]; inversion Ha; subst.
      destruct (int_of_str s) as [n|] eqn:Hn; inversion Hb; subst.
      exists s, n. auto.
  - destruct (Args.ssl args).
    + inversion Hs. auto.
    + apply (prompt_then_ret ssl_prompt
               (fun s => str_in (lower s) ["t"; "true"])) in Hs.
      destruct Hs as (s & -> & ->). eauto.
  - destruct b.
    + destruct (Args.verify_certs args).
      * inversion Hv. auto.
      * apply (prompt_then_ret verify_prompt
                 (fun s => negb (str_in (lower s) ["f"; "false"]))) in Hv.
        destruct Hv as (s & -> & ->). eauto.
    + inversion Hv. auto.
  - unfold asks_credentials, given_username.
    destruct (Args.no_auth args);
      destruct (if_truthy (py_str (Args.username args)) PyNone);
      try (inversion Hc; subst; auto; fail).
    apply bind_inv in Hc.
    destruct Hc as [(x & _ & Hx) | (u & ta & tb & Ha & Hb & ->)];
      [discriminate|].
    rewrite perform_run in Ha.
    destruct (answer oracle _ _) as [u'|x]; inversion Ha; subst.
    apply (prompt_then_ret password_prompt (fun p => (PyStr u, PyStr p))) in Hb.
    destruct Hb as (p & -> & ->).
    exists u, p. auto.
  - destruct (Args.url_prefix args).
    + inversion Hu. auto.
    + apply (prompt_then_ret url_prefix_prompt PyStr) in Hu.
      destruct Hu as (s & -> & ->). eauto.
Qed.

Ltac stages H :=
  destruct H as (th & tp & ts & tv & tc & tu & b & v & Ht & Hb & Hv
                 & Hhost & Hport & Hssl & Hverify & Hcred & Hurl).

(** Split every stage of an interactive run into its cases. *)
Ltac stage_cases :=
  repeat match goal with
         | H : if ?c then _ else _ |- _ => destruct c eqn:?
         | H : match ?c with Some _ => _ | None => _ end |- _ => destruct c eqn:?
         | H : exists _, _ |- _ => destruct H
         | H : _ /\ _ |- _ => destruct H
         end; subst.

(** X7.  A run of the no-file branch that returns has asked exactly the
    questions for the settings the arguments leave open, once each and in
    program order: host, port, SSL, certificate verification (only when SSL
    is on), username and password (only without [--no-auth] and without a
    username), URL prefix. *)
Theorem interactive_prompts_asked args h cfg t :
  resolve_interactive oracle int_of_str args h = (Ok cfg, t) ->
  exists b,
    Cfg.use_ssl cfg = PyBool b /\
    calls t = interactive_prompts args b /\
    forallb completed t = true.
Proof.
  intros H. apply resolve_interactive_ok in H. stages H.
  exists b. split; [exact Hb|]. unfold interactive_prompts.
  stage_cases; split; reflexivity.
Qed.

(** X8.  In the no-file branch the operator is asked for credentials exactly
    when [--no-auth] is absent and no non-empty username was given; the
    answers then are the username and the password, and a password given on
    the command line or in [ES_PASSWORD] is dropped.  Otherwise neither
    question is asked, and username and password are the non-empty arguments,
    else [None]. *)
Theorem prompted_credentials_replace_arguments args h cfg t :
  resolve_interactive oracle int_of_str args h = (Ok cfg, t) ->
  (Args.no_auth args = None -> truthy (py_str (Args.username args)) = false ->
   exists u p,
     In (Ev username_prompt (Returns u)) t /\
     In (Ev password_prompt (Returns p)) t /\
     Cfg.username cfg = PyStr u /\ Cfg.password cfg = PyStr p) /\
  (Args.no_auth args <> None \/ truthy (py_str (Args.username args)) = true ->
   ~ In username_prompt (calls t) /\ ~ In password_prompt (calls t) /\
   Cfg.username cfg = if_truthy (py_str (Args.username args)) PyNone /\
   Cfg.password cfg = if_truthy (py_str (Args.password args)) PyNone).
Proof.
  intros H. apply resolve_interactive_ok in H. stages H. split.
  - intros Hno Huser.
    assert (Hask : asks_credentials args = true).
    { unfold asks_credentials, given_username, if_truthy.
      rewrite Hno, Huser. reflexivity. }
    rewrite Hask in Hcred. destruct Hcred as (u & p & -> & Hu & Hp).
    exists u, p. subst t. rewrite !in_app_iff. cbn. tauto.
  - intros Hgiven.
    assert (Hask : asks_credentials args = false).
    { unfold asks_credentials, given_username, if_truthy.
      destruct Hgiven as [Hno|Huser].
      - destruct (Args.no_auth args); [reflexivity|contradiction].
      - rewrite Huser. destruct (Args.no_auth args); [reflexivity|].
        destruct (py_str (Args.username args)); try discriminate; reflexivity. }
    rewrite Hask in Hcred. destruct Hcred as (-> & Hu & Hp).
    split; [|split; [|split; [exact Hu|exact Hp]]];
      stage_cases; cbn; intros H;
      repeat (destruct H as [H|H]; [discriminate|]); exact H.
Qed.

(** X9.  In the no-file branch, when SSL is off the certificates are
    reported as verified and the operator is not asked, even with
    [--no-verify-certs] on the command line. *)
Theorem no_ssl_means_verified args h cfg t :
  resolve_interactive oracle int_of_str args h = (Ok cfg, t) ->
  Cfg.use_ssl cfg = PyBool false ->
  Cfg.verify_certs cfg = PyBool true /\ ~ In verify_prompt (calls t).
Proof.
  intros H Hoff. apply resolve_interactive_ok in H. stages H.
  rewrite Hb in Hoff. inversion Hoff; subst b.
  destruct Hverify as [-> ->]. split; [exact Hv|].
  stage_cases; cbn; intros H;
    repeat (destruct H as [H|H]; [discriminate|]); exact H.
Qed.

Lemma str_in_two s a b :
  str_in s [a; b] = true <-> s = a \/ s = b.
Proof.
  unfold str_in. cbn. rewrite orb_false_r, orb_true_iff, !String.eqb_eq.
  reflexivity.
Qed.

(** X10.  The answers to the two yes/no questions are read without regard to
    letter case, and unevenly: SSL is on only for [t] or [true], so that any
    other answer turns it off, and verification is off only for [f] or
    [false], so that any other answer leaves it on. *)
Theorem yes_no_answers args h cfg t :
  resolve_interactive oracle int_of_str args h = (Ok cfg, t) ->
  (Args.ssl args = None ->
   exists s, In (Ev ssl_prompt (Returns s)) t /\
             (Cfg.use_ssl cfg = PyBool true <->
              lower s = "t" \/ lower s = "true")) /\
  (Args.verify_certs args = None -> Cfg.use_ssl cfg = PyBool true ->
   exists s, In (Ev verify_prompt (Returns s)) t /\
             (Cfg.verify_certs cfg = PyBool false <->
              lower s = "f" \/ lower s = "false")).
Proof.
  intros H. apply resolve_interactive_ok in H. stages H. split.
  - intros Hnone. rewrite Hnone in Hssl. destruct Hssl as (s & -> & ->).
    exists s. split; [subst t; rewrite !in_app_iff; cbn; tauto|].
    rewrite Hb, <- str_in_two. split; intros H.
    + injection H as H'. exact H'.
    + rewrite H. reflexivity.
  - intros Hnone Hon. rewrite Hb in Hon. inversion Hon; subst b.
    rewrite Hnone in Hverify. destruct Hverify as (s & -> & ->).
    exists s. split; [subst t; rewrite !in_app_iff; cbn; tauto|].
    rewrite Hv, <- str_in_two. split; intros H.
    + injection H as H'. apply negb_false_iff in H'. exact H'.
    + rewrite H. reflexivity.
Qed.

(** ** Exceptions *)

Lemma abrupt_ret {A : Type} (a : A) : abrupt (ret a).
Proof.
  intros h r t pre e post x H Ht _. inversion H; subst.
  destruct pre; discriminate.
Qed.

Lemma abrupt_lift {A : Type} (y : result A) : abrupt (lift y).
Proof.
  intros h r t pre e post x H Ht _. inversion H; subst.
  destruct pre; discriminate.
Qed.

Lemma abrupt_perform c : abrupt (perform oracle c).
Proof.
  intros h r t pre e post x H Ht Hx. rewrite perform_run in H.
  inversion H; subst. clear H.
  destruct pre as [|e0 pre]; cbn in H2.
  - inversion H2; subst. split; [reflexivity|].
    cbn in Hx. destruct (answer oracle h c); inversion Hx. reflexivity.
  - inversion H2. destruct pre; discriminate.
Qed.

Lemma abrupt_bind {A B : Type} (m : M A) (f : A -> M B) :
  abrupt m -> (forall a, abrupt (f a)) -> abrupt (bind m f).
Proof.
  intros Hm Hf h r t pre e post x H Ht Hx. apply bind_inv in H.
  destruct H as [(y & Hr & ->) | (a & t1 & t2 & Hr & Hk & ->)].
  - destruct (Hm _ _ _ _ _ _ _ Hr Ht Hx) as [Hpost Herr].
    inversion Herr. auto.
  - apply app_eq_app in Ht. destruct Ht as (l & [[H1 H2] | [H1 H2]]).
    + destruct l as [|e' l]; cbn in H2.
      * rewrite app_nil_r in H1. subst t1.
        exact (Hf _ _ _ _ [] _ _ _ Hk (eq_sym H2) Hx).
      * inversion H2; subst.
        destruct (Hm _ _ _ _ _ _ _ Hr eq_refl Hx) as [_ Habs]. discriminate.
    + exact (Hf _ _ _ _ _ _ _ _ Hk H2 Hx).
Qed.

Ltac abrupt_step :=
  first
    [ apply abrupt_ret
    | apply abrupt_lift
    | match goal with
      | |- abrupt (perform oracle ?c) => exact (abrupt_perform c)
      end
    | apply abrupt_bind; [|intros ?]
    | match goal with
      | |- abrupt (if ?b then _ else _) => destruct b
      | |- abrupt (match ?x with _ => _ end) => destruct x
      end ].

Lemma abrupt_main_with args : abrupt (main_with oracle int_of_str args).
Proof.
  unfold main_with, resolve, choose_config_file, resolve_from_file,
    resolve_interactive, ask_index, ask_old_index, provision, raw_input,
    getpass, print, sleep.
  cbv zeta. repeat abrupt_step.
Qed.

(** X11.  No exception is caught: in every run of [main], whatever call
    raises (a prompt, the load of the file, the existence check, a creation,
    a mapping, the copy), that call is the last event of the run and its
    exception is the result of [main]; a run that returns normally contains
    no call that raised. *)
Theorem raised_call_ends_run env argv h r t :
  main oracle int_of_str env argv h = (r, t) ->
  (forall pre e post x,
      t = pre ++ e :: post -> raised e = Some x -> post = [] /\ r = Err x) /\
  (r = Ok tt -> forallb completed t = true).
Proof.
  intros Hrun. unfold main in Hrun.
  assert (Hcut : forall pre e post x,
             t = pre ++ e :: post -> raised e = Some x ->
             post = [] /\ r = Err x).
  { intros pre e post x Ht Hx.
    exact (abrupt_main_with _ _ _ _ _ _ _ _ Hrun Ht Hx). }
  split; [exact Hcut|].
  intros Hok. apply forallb_forall. intros e He.
  destruct (completed e) eqn:Hc; [reflexivity|].
  apply in_split in He. destruct He as (pre & post & Ht).
  assert (Hx : exists x, raised e = Some x).
  { destruct e as [c [s|x]]; [discriminate|]. exists x. reflexivity. }
  destruct Hx as (x & Hx). destruct (Hcut _ _ _ _ Ht Hx) as [_ Herr].
  rewrite Hok in Herr. discriminate.
Qed.


(** ** A port that is not a number *)

Lemma no_such_call (P : call -> bool) {A : Type} (m : M A) h r t e :
  only_calls (fun c => negb (P c)) m ->
  m h = (r, t) -> In e t -> P (call_of e) = true -> False.
Proof.
  intros Hm Hr He Hp. apply (in_map call_of) in He.
  apply (forallb_In _ _ _ (Hm _ _ _ Hr)) in He. rewrite Hp in He. discriminate.
Qed.

Lemma bad_port_interactive args h r t e s :
  resolve_interactive oracle int_of_str args h = (r, t) ->
  In e t -> call_of e = port_prompt -> replied e = Some s ->
  int_of_str s = None ->
  r = Err "ValueError" /\ exists pre, t = pre ++ [e].
Proof.
  intros H He Hc Hs Hn.
  assert (Hp : asks_port (call_of e) = true) by (rewrite Hc; reflexivity).
  unfold resolve_interactive, raw_input, getpass in H.
  apply bind_inv in H.
  destruct H as [(x & Hh & ->) | (host & th & t1 & Hh & H & ->)].
  { exfalso. refine (no_such_call asks_port _ _ _ _ _ _ Hh He Hp).
    repeat only_step. }
  assert (Hth : ~ In e th).
  { intros Hin. refine (no_such_call asks_port _ _ _ _ _ _ Hh Hin Hp).
    repeat only_step. }
  apply in_app_or in He. destruct He as [He|He]; [contradiction|].
  apply bind_inv in H.
  destruct H as [(x & Hpt & ->) | (port & tp & t2 & Hpt & H & ->)].
  - destruct (truthy (py_int (Args.port args))); [inversion Hpt|].
    apply bind_inv in Hpt.
    destruct Hpt as [(y & Ha & Hy) | (s' & ta & tb & Ha & Hb & ->)];
      rewrite perform_run in Ha;
      destruct (answer oracle _ _) as [s0|x0]; inversion Ha; subst.
    + destruct He as [<-|[]]. discriminate.
    + destruct (int_of_str s') eqn:Hs'; inversion Hb; subst.
      destruct He as [<-|[]]. split; [reflexivity|]. exists th. reflexivity.
  - exfalso. apply in_app_or in He. destruct He as [He|He].
    + destruct (truthy (py_int (Args.port args))); [inversion Hpt; subst; exact He|].
      apply bind_inv in Hpt.
      destruct Hpt as [(y & Ha & Hy) | (s' & ta & tb & Ha & Hb & ->)];
        [discriminate|].
      rewrite perform_run in Ha.
      destruct (answer oracle _ _) as [s0|x0]; inversion Ha; subst.
      destruct (int_of_str s') eqn:Hs'; inversion Hb; subst.
      destruct He as [<-|[]]. cbn in Hs. inversion Hs; subst.
      rewrite Hn in Hs'. discriminate.
    + refine (no_such_call asks_port _ _ _ _ _ _ H He Hp).
      repeat only_step.
Qed.

(** X12.  When the operator's answer to the port question is not an integer,
    [main] ends with [ValueError] at that answer: no further question is
    asked and the cluster is not contacted. *)
Theorem bad_port_answer_is_fatal env argv h r t e s :
  main oracle int_of_str env argv h = (r, t) ->
  In e t -> call_of e = port_prompt -> replied e = Some s ->
  int_of_str s = None ->
  r = Err "ValueError" /\ exists pre, t = pre ++ [e].
Proof.
  unfold main, main_with. set (args := parse_args env argv).
  intros H He Hc Hs Hn.
  assert (Hp : asks_port (call_of e) = true) by (rewrite Hc; reflexivity).
  assert (Hres : forall r1 t1,
             resolve oracle int_of_str args h = (r1, t1) -> In e t1 ->
             r1 = Err "ValueError" /\ exists pre, t1 = pre ++ [e]).
  { intros r1 t1 Hr Hin. unfold resolve in Hr. apply bind_inv in Hr.
    destruct Hr as [(x & Hch & ->) | (f & tc & tf & Hch & Hk & ->)].
    { exfalso. refine (no_such_call asks_port _ _ _ _ _ _ Hch Hin Hp).
      unfold choose_config_file. repeat only_step. }
    apply in_app_or in Hin. destruct Hin as [Hin|Hin].
    { exfalso. refine (no_such_call asks_port _ _ _ _ _ _ Hch Hin Hp).
      unfold choose_config_file. repeat only_step. }
    destruct (truthy (PyStr f)).
    - exfalso. refine (no_such_call asks_port _ _ _ _ _ _ Hk Hin Hp).
      unfold resolve_from_file. repeat only_step.
    - destruct (bad_port_interactive _ _ _ _ _ _ Hk Hin Hc Hs Hn)
        as (-> & pre & ->).
      split; [reflexivity|]. exists (tc ++ pre). rewrite app_assoc. reflexivity. }
  apply bind_inv in H.
  destruct H as [(x & Hr & ->) | (cfg & t1 & t2 & Hr & Hk & ->)].
  - destruct (Hres _ _ Hr He) as [Herr Hlast]. inversion Herr. auto.
  - exfalso. apply in_app_or in He. destruct He as [He|He].
    + destruct (Hres _ _ Hr He) as [Habs _]. discriminate.
    + refine (no_such_call asks_port _ _ _ _ _ _ Hk He Hp).
      unfold ask_index, ask_old_index, provision, raw_input, print, sleep.
      repeat only_step.
Qed.


(** ** The run of [main] as a whole *)

(** The stages of a run of [main] that reaches the cluster. *)
Lemma main_with_stages args h r t :
  main_with oracle int_of_str args h = (r, t) ->
  (exists x, r = Err x /\ forallb is_input (calls t) = true) \/
  exists cfg index old_index t1 t2 t3 t4,
    resolve oracle int_of_str args h = (Ok cfg, t1) /\
    ask_index oracle args (h ++ t1) = (Ok index, t2) /\
    ask_old_index oracle args ((h ++ t1) ++ t2) = (Ok old_index, t3) /\
    provision oracle (connect args cfg) index old_index
      (((h ++ t1) ++ t2) ++ t3) = (r, t4) /\
    t = t1 ++ t2 ++ t3 ++ t4 /\
    forallb is_input (calls (t1 ++ t2 ++ t3)) = true.
Proof.
  unfold main_with. intros H. apply bind_inv in H.
  destruct H as [(x & Hr & ->) | (cfg & t1 & t' & Hr & H & ->)].
  { left. exists x. split; [reflexivity|].
    exact (quiet_resolve _ _ _ _ _ _ Hr). }
  apply bind_inv in H.
  destruct H as [(x & Hi & ->) | (index & t2 & t'' & Hi & H & ->)].
  { left. exists x. split; [reflexivity|]. rewrite calls_app, forallb_app.
    rewrite (quiet_resolve _ _ _ _ _ _ Hr). exact (quiet_ask_index _ _ _ _ _ Hi). }
  apply bind_inv in H.
  destruct H as [(x & Ho & ->) | (old_index & t3 & t4 & Ho & H & ->)].
  { left. exists x. split; [reflexivity|]. rewrite !calls_app, !forallb_app.
    rewrite (quiet_resolve _ _ _ _ _ _ Hr), (quiet_ask_index _ _ _ _ _ Hi).
    exact (quiet_ask_old_index _ _ _ _ _ Ho). }
  right. exists cfg, index, old_index, t1, t2, t3, t4.
  repeat split; try assumption.
  rewrite !calls_app, !forallb_app.
  rewrite (quiet_resolve _ _ _ _ _ _ Hr), (quiet_ask_index _ _ _ _ _ Hi).
  exact (quiet_ask_old_index _ _ _ _ _ Ho).
Qed.

(** The calls [provision] can make. *)
Lemma provision_calls es index old_index h r t c :
  provision oracle es index old_index h = (r, t) ->
  In c (calls t) ->
  c = IndicesExists es index \/ c = Stdout (skip_notice index) \/
  In c (steps es index old_index).
Proof.
  intros H Hc. apply provision_run in H.
  destruct H as [(_ & _ & ->) | [(x & _ & _ & ->) | (t' & _ & -> & Hr)]].
  - destruct Hc as [<-|[<-|[]]]; auto.
  - destruct Hc as [<-|[]]; auto.
  - destruct Hc as [<-|Hc]; [auto|].
    unfold calls in Hc. apply in_map_iff in Hc. destruct Hc as (e & <- & He).
    right. right. exact (run_calls_In _ _ _ _ _ _ Hr He).
Qed.

Lemma steps_client es index old_index c es' :
  In c (steps es index old_index) -> client_of c = Some es' -> es' = es.
Proof.
  unfold steps, migration_calls. intros Hc Hes.
  destruct (truthy (PyStr old_index)); cbn in Hc;
    repeat (destruct Hc as [<-|Hc]; [cbn in Hes; congruence|]);
    destruct Hc.
Qed.

Lemma steps_created es index old_index c i :
  In c (steps es index old_index) -> created_index c = Some i ->
  In i fixed_indices.
Proof.
  unfold steps, migration_calls. intros Hc Hi.
  destruct (truthy (PyStr old_index)); cbn in Hc;
    repeat (destruct Hc as [<-|Hc];
            [cbn in Hi; first [discriminate | inversion Hi; cbn; tauto]|]);
    destruct Hc.
Qed.

Lemma input_no_client c : is_input c = true -> client_of c = None.
Proof. destruct c; try discriminate; reflexivity. Qed.

(** X13.  Every call to the cluster in a run of [main] goes through one and
    the same client, the one built from the settings the run resolved. *)
Theorem one_client_per_run env argv h r t :
  main oracle int_of_str env argv h = (r, t) ->
  (forall c es,
      In c (calls t) -> client_of c = Some es ->
      exists cfg t1,
        resolve oracle int_of_str (parse_args env argv) h = (Ok cfg, t1) /\
        es = connect (parse_args env argv) cfg) /\
  (forall c c' es es',
      In c (calls t) -> In c' (calls t) ->
      client_of c = Some es -> client_of c' = Some es' -> es = es').
Proof.
  unfold main. set (args := parse_args env argv). intros H.
  assert (Hone : forall c es,
             In c (calls t) -> client_of c = Some es ->
             exists cfg t1,
               resolve oracle int_of_str args h = (Ok cfg, t1) /\
               es = connect args cfg).
  { intros c es Hc Hes. apply main_with_stages in H.
    destruct H as [(x & _ & Hq) | (cfg & i & o & t1 & t2 & t3 & t4 & Hr & _ & _
                                    & Hp & -> & Hq)].
    - apply (forallb_In _ _ _ Hq) in Hc. apply input_no_client in Hc.
      congruence.
    - rewrite !app_assoc in Hc. rewrite calls_app in Hc.
      apply in_app_or in Hc. destruct Hc as [Hc|Hc].
      + rewrite <- !app_assoc in Hc. apply (forallb_In _ _ _ Hq) in Hc.
        apply input_no_client in Hc. congruence.
      + exists cfg, t1. split; [exact Hr|].
        destruct (provision_calls _ _ _ _ _ _ _ Hp Hc) as [->|[->|Hs]].
        * inversion Hes. reflexivity.
        * discriminate.
        * exact (steps_client _ _ _ _ _ Hs Hes). }
  split; [exact Hone|].
  intros c c' es es' Hc Hc' Hes Hes'.
  destruct (Hone _ _ Hc Hes) as (cfg & t1 & Hr & ->).
  destruct (Hone _ _ Hc' Hes') as (cfg' & t1' & Hr' & ->).
  rewrite Hr in Hr'. inversion Hr'. reflexivity.
Qed.

(** X14.  The only indices [main] ever asks the cluster to create are
    [elastalert], [elastalert_status], [elastalert_silence],
    [elastalert_error] and [elastalert_past]: a target index of another name
    is never created by a creation call. *)
Theorem only_fixed_indices_are_created env argv h r t c i :
  main oracle int_of_str env argv h = (r, t) ->
  In c (calls t) -> created_index c = Some i ->
  In i fixed_indices.
Proof.
  unfold main. intros H Hc Hi. apply main_with_stages in H.
  destruct H as [(x & _ & Hq) | (cfg & ix & o & t1 & t2 & t3 & t4 & _ & _ & _
                                  & Hp & -> & Hq)].
  - apply (forallb_In _ _ _ Hq) in Hc. destruct c; discriminate.
  - rewrite !app_assoc in Hc. rewrite calls_app in Hc.
    apply in_app_or in Hc. destruct Hc as [Hc|Hc].
    + rewrite <- !app_assoc in Hc. apply (forallb_In _ _ _ Hq) in Hc.
      destruct c; discriminate.
    + destruct (provision_calls _ _ _ _ _ _ _ Hp Hc) as [->|[->|Hs]];
        try discriminate.
      exact (steps_created _ _ _ _ _ Hs Hi).
Qed.

(** X15.  [main] changes nothing in the cluster unless it has asked whether
    the target index exists and was told it does not: every creation,
    mapping and copy call comes after an existence check, made through the
    same client, that answered [False]. *)
Theorem mutation_only_after_absent_check env argv h r t pre e post :
  main oracle int_of_str env argv h = (r, t) ->
  t = pre ++ e :: post ->
  mutating (call_of e) = true ->
  exists es index,
    In (Ev (IndicesExists es index) (Returns false)) pre /\
    client_of (call_of e) = Some es.
Proof.
  unfold main. intros H Ht He. apply main_with_stages in H.
  assert (Hin : In (call_of e) (calls t)).
  { subst t. unfold calls. rewrite map_app. apply in_elt. }
  destruct H as [(x & _ & Hq) | (cfg & ix & o & t1 & t2 & t3 & t4 & _ & _ & _
                                  & Hp & Heq & Hq)].
  { apply (forallb_In _ _ _ Hq) in Hin. destruct (call_of e); discriminate. }
  clear Hin. rewrite Heq in Ht. rewrite !app_assoc in Ht.
  apply app_eq_app in Ht. destruct Ht as (l & [[H1 H2] | [H1 H2]]).
  - exfalso. destruct l as [|e' l]; cbn in H2.
    + subst t4. apply provision_run in Hp.
      destruct Hp as [(_ & _ & Hp) | [(x & _ & _ & Hp) | (t' & _ & Hp & _)]];
        inversion Hp; subst; discriminate.
    + inversion H2; subst e'.
      assert (Hin : In (call_of e) (calls (t1 ++ t2 ++ t3))).
      { rewrite !app_assoc, H1. unfold calls. rewrite map_app. apply in_elt. }
      apply (forallb_In _ _ _ Hq) in Hin. destruct (call_of e); discriminate.
  - subst t4. apply provision_run in Hp.
    destruct Hp as [(_ & _ & Hp) | [(x & _ & _ & Hp) | (t' & _ & Hp & Hr)]].
    + exfalso. assert (Hin : In e (l ++ e :: post)) by apply in_elt.
      rewrite Hp in Hin. destruct Hin as [<-|[<-|[]]]; discriminate.
    + exfalso. assert (Hin : In e (l ++ e :: post)) by apply in_elt.
      rewrite Hp in Hin. destruct Hin as [<-|[]]; discriminate.
    + destruct l as [|e0 l]; cbn in Hp; inversion Hp; subst.
      * discriminate.
      * exists (connect (parse_args env argv) cfg), ix. split.
        -- apply in_or_app. right. left. reflexivity.
        -- assert (Hs : In (call_of e) (steps (connect (parse_args env argv) cfg)
                                          ix o)).
           { apply (run_calls_In _ _ _ _ _ _ Hr). apply in_elt. }
           destruct (client_of (call_of e)) as [es|] eqn:Hes.
           ++ rewrite (steps_client _ _ _ _ _ Hs Hes). reflexivity.
           ++ destruct (call_of e); discriminate.
Qed.

Lemma steps_end_with_done es index old_index :
  steps es index old_index
  = (creation_calls es ++ [Sleep 2] ++ mapping_calls es
     ++ [Stdout ("New index " ++ index ++ " created")]
     ++ migration_calls es index old_index) ++ [Stdout "Done!"].
Proof. unfold steps. rewrite <- !app_assoc. reflexivity. Qed.

Lemma not_done_before_the_end es index old_index :
  forallb (fun c => negb (is_done c))
    (creation_calls es ++ [Sleep 2] ++ mapping_calls es
     ++ [Stdout ("New index " ++ index ++ " created")]
     ++ migration_calls es index old_index) = true.
Proof. unfold migration_calls. destruct (truthy _); reflexivity. Qed.

(** X16.  "Done!" is printed only by a run in which everything worked: when
    it appears, [main] returns normally, no call of the run raised, and the
    calls made after the settings were read are the existence check, the
    five creations, the sleep, the five mappings, the announcement, the copy
    when an old index was given, and "Done!" itself. *)
Theorem done_means_everything_ran env argv h r t :
  main oracle int_of_str env argv h = (r, t) ->
  In (Stdout "Done!") (calls t) ->
  r = Ok tt /\ forallb completed t = true /\
  exists t0 es index old_index,
    forallb is_input (calls t0) = true /\
    calls t = calls t0 ++ IndicesExists es index :: steps es index old_index.
Proof.
  intros Hrun Hdone.
  assert (Hok : r = Ok tt /\
                exists t0 es index old_index,
                  forallb is_input (calls t0) = true /\
                  calls t = calls t0 ++ IndicesExists es index
                                        :: steps es index old_index).
  { unfold main in Hrun. apply main_with_stages in Hrun.
    destruct Hrun as [(x & _ & Hq) | (cfg & ix & o & t1 & t2 & t3 & t4 & _ & _
                                       & _ & Hp & -> & Hq)].
    { apply (forallb_In _ _ _ Hq) in Hdone. discriminate. }
    rewrite !app_assoc, calls_app in Hdone. rewrite <- !app_assoc in Hdone.
    apply in_app_or in Hdone. destruct Hdone as [Hdone|Hdone].
    { apply (forallb_In _ _ _ Hq) in Hdone. discriminate. }
    apply provision_run in Hp.
    destruct Hp as [(_ & _ & ->) | [(x & _ & _ & ->) | (t' & _ & -> & Hr)]].
    - destruct Hdone as [Hd|[Hd|[]]]; discriminate.
    - destruct Hdone as [Hd|[]]; discriminate.
    - destruct Hdone as [Hd|Hdone]; [discriminate|].
      rewrite steps_end_with_done in Hr. apply run_calls_app in Hr.
      destruct Hr as [(x & -> & HA) | (tA & tB & HA & HB & ->)].
      + exfalso. unfold calls in Hdone. apply in_map_iff in Hdone.
        destruct Hdone as (e & He & Hin).
        apply (run_calls_In _ _ _ _ _ _ HA) in Hin.
        apply (forallb_In _ _ _ (not_done_before_the_end _ _ _)) in Hin.
        rewrite He in Hin. discriminate.
      + apply run_calls_ok in HA. destruct HA as [HA _].
        cbn in HB. inversion HB; subst. split; [reflexivity|].
        exists (t1 ++ t2 ++ t3), (connect (parse_args env argv) cfg), ix, o.
        split; [exact Hq|].
        rewrite steps_end_with_done.
        replace (t1 ++ t2 ++ t3 ++ Ev (IndicesExists (connect (parse_args env argv) cfg) ix) (Returns false) :: tA ++ [Ev (Stdout "Done!") (Returns tt)])
          with ((t1 ++ t2 ++ t3) ++ Ev (IndicesExists (connect (parse_args env argv) cfg) ix) (Returns false) :: tA ++ [Ev (Stdout "Done!") (Returns tt)])
          by (rewrite <- !app_assoc; reflexivity).
        rewrite calls_app. unfold calls at 2. cbn [map call_of].
        rewrite map_app. unfold calls in HA. rewrite HA. reflexivity. }
  destruct Hok as [Hr Hshape]. split; [exact Hr|]. split; [|exact Hshape].
  apply forallb_forall. intros e He.
  destruct (completed e) eqn:Hc; [reflexivity|].
  apply in_split in He. destruct He as (pre & post & Ht).
  assert (Hx : exists x, raised e = Some x).
  { destruct e as [c [s|x]]; [discriminate|]. exists x. reflexivity. }
  destruct Hx as (x & Hx).
  destruct (abrupt_main_with _ _ _ _ _ _ _ _ Hrun Ht Hx) as [_ Herr].
  rewrite Hr in Herr. discriminate.
Qed.

(** X17.  The questions for the target index and for the old index, when
    [--index] and [--old-index] are not given, are put before the cluster is
    asked anything: the old index is asked for also in a run that then finds
    the target and skips everything. *)
Theorem index_questions_come_first env argv h r t pre e post :
  main oracle int_of_str env argv h = (r, t) ->
  t = pre ++ e :: post ->
  is_exists (call_of e) = true ->
  (Args.index (parse_args env argv) = None ->
   exists s, In (Ev index_prompt (Returns s)) pre) /\
  (Args.old_index (parse_args env argv) = None ->
   exists s, In (Ev old_index_prompt (Returns s)) pre).
Proof.
  unfold main. set (args := parse_args env argv). intros H Ht He.
  apply main_with_stages in H.
  assert (Hin : In (call_of e) (calls t)).
  { subst t. unfold calls. rewrite map_app. apply in_elt. }
  destruct H as [(x & _ & Hq) | (cfg & ix & o & t1 & t2 & t3 & t4 & _ & Hi & Ho
                                  & _ & Heq & Hq)].
  { apply (forallb_In _ _ _ Hq) in Hin. destruct (call_of e); discriminate. }
  clear Hin. rewrite Heq in Ht. rewrite !app_assoc in Ht.
  assert (Hpre : exists l, pre = ((t1 ++ t2) ++ t3) ++ l).
  { apply app_eq_app in Ht. destruct Ht as (l & [[H1 H2] | [H1 H2]]).
    - destruct l as [|e' l]; cbn in H2.
      + exists []. rewrite app_nil_r in *. auto.
      + exfalso. inversion H2; subst e'.
        assert (Hin : In (call_of e) (calls (t1 ++ t2 ++ t3))).
        { rewrite !app_assoc, H1. unfold calls. rewrite map_app. apply in_elt. }
        apply (forallb_In _ _ _ Hq) in Hin. destruct (call_of e); discriminate.
    - exists l. exact H1. }
  destruct Hpre as (l & ->). split.
  - intros Hnone. unfold ask_index, raw_input in Hi. rewrite Hnone in Hi.
    apply bind_inv in Hi.
    destruct Hi as [(x & _ & Hx) | (s & ta & tb & Ha & _ & ->)]; [discriminate|].
    rewrite perform_run in Ha.
    destruct (answer oracle _ _) as [s'|x]; inversion Ha; subst.
    exists s. rewrite !in_app_iff. cbn. tauto.
  - intros Hnone. unfold ask_old_index, raw_input in Ho. rewrite Hnone in Ho.
    rewrite perform_run in Ho.
    destruct (answer oracle _ _) as [s|x] eqn:Hans; inversion Ho; subst.
    exists o. rewrite !in_app_iff. cbn. tauto.
Qed.

End More.

(** * Sample runs for the further properties *)

Lemma last_flag_wins_witness :
  Args.profile (parse_args no_environ [OptProfile "ops"; OptBotoProfile "old"])
  = Some "old" /\
  Args.ssl (parse_args env_with_host [OptNoSsl; OptSsl; OptHost "h"]) = Some true.
Proof.
  split.
  - apply (last_flag_wins no_environ [OptProfile "ops"] (OptBotoProfile "old") []).
    + reflexivity.
    + intros o [].
  - apply (last_flag_wins env_with_host [OptNoSsl] OptSsl [OptHost "h"]).
    + reflexivity.
    + intros o [<-|[]]. reflexivity.
Defined.

Lemma timeout_flag_is_a_string_witness :
  Client.timeout (connect (parse_args no_environ [OptIndex "foo"]) aws_cfg)
  = PyInt 60 /\
  Client.timeout (connect (parse_args no_environ [OptTimeout "30"]) aws_cfg)
  = PyStr "30".
Proof.
  split.
  - apply (timeout_flag_is_a_string no_environ [OptIndex "foo"] aws_cfg).
    intros s [H|[]]. discriminate.
  - apply (timeout_flag_is_a_string no_environ [OptTimeout "30"] aws_cfg)
      with (before := []) (after := []); [reflexivity|].
    intros s [].
Defined.

Lemma non_mapping_config_is_fatal_witness :
  main (simulate (site_with_document PyNone)) sample_int no_environ [] []
  = (Err "AttributeError",
     [Ev (IsFile "config.yaml") (Returns true);
      Ev (YamlLoad "config.yaml") (Returns PyNone)]).
Proof.
  apply (non_mapping_config_is_fatal (simulate (site_with_document PyNone))
           sample_int no_environ [] [] "config.yaml"
           [Ev (IsFile "config.yaml") (Returns true)] PyNone);
    [reflexivity | discriminate | reflexivity | reflexivity].
Defined.

Lemma file_mode_asks_nothing_witness :
  exists cfg,
    resolve (simulate (site_with_document (PyDict [("use_ssl", PyBool true)])))
      sample_int (parse_args no_environ []) []
    = (Ok cfg,
       [Ev (IsFile "config.yaml") (Returns true);
        Ev (YamlLoad "config.yaml")
           (Returns (PyDict [("use_ssl", PyBool true)]))]) /\
    Cfg.host cfg = PyNone /\ Cfg.port cfg = PyNone.
Proof.
  destruct (file_mode_asks_nothing
              (simulate (site_with_document (PyDict [("use_ssl", PyBool true)])))
              sample_int (parse_args no_environ []) [] "config.yaml"
              [Ev (IsFile "config.yaml") (Returns true)]
              [("use_ssl", PyBool true)])
    as (cfg & Hrun & Hhost & Hport);
    [reflexivity | discriminate | reflexivity |].
  exists cfg. split; [exact Hrun|]. split.
  - apply Hhost; reflexivity.
  - apply Hport; reflexivity.
Defined.

Lemma scripted_run_asks_nothing_witness :
  let run := main (simulate (site ["bar"])) sample_int no_environ
                  [OptIndex "foo"; OptOldIndex "bar"] [] in
  forallb (fun c => negb (is_prompt c)) (calls (snd run)) = true.
Proof.
  cbv zeta.
  eapply (scripted_run_asks_nothing (simulate (site ["bar"])) sample_int
            no_environ [OptIndex "foo"; OptOldIndex "bar"] [] "config.yaml"
            [Ev (IsFile "config.yaml") (Returns true)]);
    [reflexivity | discriminate | discriminate | discriminate
    | apply surjective_pairing].
Defined.

Lemma region_flag_ignored_with_file_witness :
  main (simulate (site [])) sample_int no_environ
       [OptIndex "foo"; OptAwsRegion "eu-west-1"; OptOldIndex ""] []
  = main (simulate (site [])) sample_int no_environ
         [OptIndex "foo"; OptOldIndex ""] [].
Proof.
  apply (region_flag_ignored_with_file (simulate (site [])) sample_int
           no_environ [OptIndex "foo"] (OptAwsRegion "eu-west-1")
           [OptOldIndex ""] [] "config.yaml"
           [Ev (IsFile "config.yaml") (Returns true)]);
    [left; eexists; reflexivity | reflexivity | discriminate].
Defined.

Lemma interactive_prompts_asked_witness :
  exists cfg t,
    resolve_interactive (simulate (operator usual_replies)) sample_int
      (parse_args no_environ [OptHost "es.cli.example"; OptUrlPrefix ""]) []
    = (Ok cfg, t) /\
    calls t = [port_prompt; ssl_prompt; verify_prompt; username_prompt;
               password_prompt].
Proof.
  destruct (resolve_interactive (simulate (operator usual_replies)) sample_int
              (parse_args no_environ [OptHost "es.cli.example"; OptUrlPrefix ""])
              []) as [[cfg|x] t] eqn:Hrun.
  - exists cfg, t. split; [reflexivity|].
    destruct (interactive_prompts_asked _ _ _ _ _ _ Hrun) as (b & Hb & Hc & _).
    rewrite Hc. vm_compute in Hrun. inversion Hrun; subst.
    inversion Hb. reflexivity.
  - vm_compute in Hrun. discriminate.
Defined.

Lemma prompted_credentials_replace_arguments_witness :
  exists cfg t,
    resolve_interactive (simulate (operator usual_replies)) sample_int
      (parse_args no_environ [OptPassword "from-cli"]) [] = (Ok cfg, t) /\
    Cfg.username cfg = PyStr "admin" /\ Cfg.password cfg = PyStr "secret".
Proof.
  destruct (resolve_interactive (simulate (operator usual_replies)) sample_int
              (parse_args no_environ [OptPassword "from-cli"]) [])
    as [[cfg|x] t] eqn:Hrun.
  - exists cfg, t. split; [reflexivity|].
    destruct (prompted_credentials_replace_arguments _ _ _ _ _ _ Hrun)
      as [Hasked _].
    destruct (Hasked eq_refl eq_refl) as (u & p & _ & _ & Hu & Hp).
    vm_compute in Hrun. inversion Hrun; subst. split; reflexivity.
  - vm_compute in Hrun. discriminate.
Defined.

Lemma no_ssl_means_verified_witness :
  exists cfg t,
    resolve_interactive (simulate (operator usual_replies)) sample_int
      (parse_args no_environ [OptNoSsl; OptNoVerifyCerts]) [] = (Ok cfg, t) /\
    Cfg.verify_certs cfg = PyBool true /\ ~ In verify_prompt (calls t).
Proof.
  destruct (resolve_interactive (simulate (operator usual_replies)) sample_int
              (parse_args no_environ [OptNoSsl; OptNoVerifyCerts]) [])
    as [[cfg|x] t] eqn:Hrun.
  - exists cfg, t. split; [reflexivity|].
    apply (no_ssl_means_verified _ _ _ _ _ _ Hrun).
    vm_compute in Hrun. inversion Hrun. reflexivity.
  - vm_compute in Hrun. discriminate.
Defined.

Lemma yes_no_answers_witness :
  exists cfg t s,
    resolve_interactive (simulate (operator usual_replies)) sample_int
      (parse_args no_environ []) [] = (Ok cfg, t) /\
    In (Ev ssl_prompt (Returns s)) t /\
    (Cfg.use_ssl cfg = PyBool true <-> lower s = "t" \/ lower s = "true").
Proof.
  destruct (resolve_interactive (simulate (operator usual_replies)) sample_int
              (parse_args no_environ []) []) as [[cfg|x] t] eqn:Hrun.
  - destruct (yes_no_answers _ _ _ _ _ _ Hrun) as [Hssl _].
    destruct (Hssl eq_refl) as (s & Hin & Hiff).
    exists cfg, t, s. auto.
  - vm_compute in Hrun. discriminate.
Defined.

Lemma raised_call_ends_run_witness :
  let run := main (simulate (site ["elastalert"])) sample_int no_environ
                  [OptIndex "foo"; OptOldIndex ""] [] in
  fst run = Err "RequestError".
Proof.
  cbv zeta.
  destruct (raised_call_ends_run (simulate (site ["elastalert"])) sample_int
              no_environ [OptIndex "foo"; OptOldIndex ""] [] _ _
              (surjective_pairing _)) as [Hcut _].
  apply (Hcut [Ev (IsFile "config.yaml") (Returns true);
               Ev (YamlLoad "config.yaml") (Returns (PyDict config_yaml));
               Ev (IndicesExists site_client "foo") (Returns false)]
              (Ev (IndicesCreate site_client "elastalert")
                  (Raises "RequestError")) []);
    [vm_compute; reflexivity | reflexivity].
Defined.

Lemma bad_port_answer_is_fatal_witness :
  let w := operator [("Enter Elasticsearch host: ", "localhost");
                     ("Enter Elasticsearch port: ", "92oo")] in
  let run := main (simulate w) sample_int no_environ [] [] in
  fst run = Err "ValueError" /\
  exists pre, snd run = pre ++ [Ev port_prompt (Returns "92oo")].
Proof.
  cbv zeta.
  apply (bad_port_answer_is_fatal _ sample_int no_environ [] [] _ _
           (Ev port_prompt (Returns "92oo")) "92oo" (surjective_pairing _));
    [vm_compute; auto 10 | reflexivity | reflexivity | reflexivity].
Defined.

Lemma one_client_per_run_witness :
  exists cfg t1,
    resolve (simulate (site ["bar"])) sample_int
      (parse_args no_environ [OptIndex "foo"; OptOldIndex "bar"]) []
    = (Ok cfg, t1) /\
    site_client = connect (parse_args no_environ [OptIndex "foo"; OptOldIndex "bar"])
                          cfg.
Proof.
  destruct (one_client_per_run (simulate (site ["bar"])) sample_int no_environ
              [OptIndex "foo"; OptOldIndex "bar"] [] _ _ (surjective_pairing _))
    as [Hone _].
  apply (Hone (Reindex site_client "bar" "foo") site_client);
    [vm_compute; auto 30 | reflexivity].
Defined.

Lemma only_fixed_indices_are_created_witness :
  In "elastalert_past" fixed_indices.
Proof.
  apply (only_fixed_indices_are_created (simulate (site ["bar"])) sample_int
           no_environ [OptIndex "foo"; OptOldIndex "bar"] [] _ _
           (IndicesCreate site_client "elastalert_past") "elastalert_past"
           (surjective_pairing _));
    [vm_compute; auto 30 | reflexivity].
Defined.

Lemma mutation_only_after_absent_check_witness :
  let pre := [Ev (IsFile "config.yaml") (Returns true);
              Ev (YamlLoad "config.yaml") (Returns (PyDict config_yaml));
              Ev (IndicesExists site_client "foo") (Returns false)] in
  exists es index,
    In (Ev (IndicesExists es index) (Returns false)) pre /\
    client_of (IndicesCreate site_client "elastalert") = Some es.
Proof.
  cbv zeta.
  apply (mutation_only_after_absent_check (simulate (site ["elastalert"]))
           sample_int no_environ [OptIndex "foo"; OptOldIndex ""] [] _ _ _
           (Ev (IndicesCreate site_client "elastalert") (Raises "RequestError"))
           [] (surjective_pairing _));
    [vm_compute; reflexivity | reflexivity].
Defined.

Lemma done_means_everything_ran_witness :
  let run := main (simulate (site ["bar"])) sample_int no_environ
                  [OptIndex "foo"; OptOldIndex "bar"] [] in
  fst run = Ok tt /\ forallb completed (snd run) = true.
Proof.
  cbv zeta.
  destruct (done_means_everything_ran (simulate (site ["bar"])) sample_int
              no_environ [OptIndex "foo"; OptOldIndex "bar"] [] _ _
              (surjective_pairing _)) as (Hr & Hc & _).
  - vm_compute. auto 30.
  - split; assumption.
Defined.

Lemma index_questions_come_first_witness :
  calls (firstn 11 interactive_trace)
  = [IsFile "config.yaml"; IsFile "config.yaml"; host_prompt; port_prompt;
     ssl_prompt; verify_prompt; username_prompt; password_prompt;
     url_prefix_prompt; index_prompt; old_index_prompt] /\
  exists s, In (Ev old_index_prompt (Returns s)) (firstn 11 interactive_trace).
Proof.
  split; [reflexivity|].
  assert (Hrun : main (simulate interactive_site) sample_int no_environ [] []
                 = (Ok tt, interactive_trace)) by (vm_compute; reflexivity).
  assert (Hcut : interactive_trace
                 = firstn 11 interactive_trace
                   ++ nth 11 interactive_trace (Ev (Sleep 0) (Returns tt))
                   :: skipn 12 interactive_trace) by reflexivity.
  assert (Hcheck : is_exists (call_of (nth 11 interactive_trace
                                           (Ev (Sleep 0) (Returns tt)))) = true)
    by reflexivity.
  apply (proj2 (index_questions_come_first _ _ _ _ _ _ _ _ _ _ Hrun Hcut Hcheck)).
  reflexivity.
Defined.
